(** * OSINT username checker: the probe and the scan, verified

    A shallow embedding of [src/osint_username_checker.py]: the class
    [UsernameChecker] with its methods [check_username] (one probe of one
    site) and [scan_username] (all probes of a scan, collected in completion
    order), and the properties of the probe engine proved about them.

    Python values are modelled as follows.
    - [str] is [string]; a site ([Dict], read from JSON) is a finite map from
      keys to strings, so that a missing key is visible. The values of a
      site are strings, as a Site Descriptor has them.
    - The [result] dict of a probe has the four fixed keys ['site'], ['url'],
      ['status'], ['error'] and is a record; [None] is [None].
    - The HTTP client, [random.choice] and the completion order of the tasks
      are inputs of the model: a function from requests to outcomes, the
      number drawn for each task, and a schedule.
    - [await client.get] and [await asyncio.sleep] leave an event in the
      trace of the probe; [asyncio.sleep] itself does not raise.
    - Exceptions are those derived from [Exception]; cancellation and
      interpreter exit are outside the model. *)

From Stdlib Require Import ZArith String Ascii PrimFloat.
From stdpp Require Import base option list gmap strings pretty.

Open Scope string_scope.
Open Scope Z_scope.
Open Scope list_scope.

(** ** Exceptions *)

(** The [except] clauses of [check_username] test an exception against three
    classes of [httpx], none of which derives from another; every other
    exception is kept with the name of its class and its [str(e)]. *)
Inductive Exception : Type :=
| TimeoutException
| ConnectError
| UnsupportedProtocol
| OtherException (type_name : string) (str_e : string).

(** [KeyError(key)] for a key of letters, digits and underscores, as the
    keys this program looks up are: its [str] is [repr(key)], the key
    between apostrophes. A key with an apostrophe, a backslash or a
    character that [repr] escapes is not built with this definition. *)
Definition KeyError (key : string) : Exception :=
  OtherException "KeyError" ("'" +:+ key +:+ "'").
Definition IndexError (msg : string) : Exception := OtherException "IndexError" msg.
Definition ValueError (msg : string) : Exception := OtherException "ValueError" msg.

(** An expression that yields a value or raises. In [x ← e; k] an exception
    raised by [e] is raised by the whole. *)
Definition Raises (A : Type) : Type := Exception + A.

#[global] Instance Raises_ret : MRet Raises := fun A a => inr a.
#[global] Instance Raises_bind : MBind Raises := fun A B k m =>
  match m with
  | inl e => inl e
  | inr a => k a
  end.
#[global] Instance Raises_fmap : FMap Raises := fun A B f m =>
  match m with
  | inl e => inl e
  | inr a => inr (f a)
  end.

(** ** Built-in string methods *)

(** [str.format] and [str.lower] belong to Python, not to the program. The
    development is generic in them; [PlainStrings] below gives an instance. *)
Class Builtins : Type := {
  (** [template.format(username=username)] *)
  str_format : string -> string -> Raises string;
  (** [s.lower()] *)
  str_lower : string -> string
}.

(** [needle in haystack] on strings. *)
Fixpoint str_in (needle haystack : string) : bool :=
  String.prefix needle haystack
  || match haystack with
     | EmptyString => false
     | String _ rest => str_in needle rest
     end.

(** Truth value of a string: [bool(s)]. *)
Definition truthy (s : string) : bool :=
  match s with
  | EmptyString => false
  | String _ _ => true
  end.

(** ** Data model *)

(** [site: Dict], an entry of the ['sites'] list. *)
Abbreviation Site := (gmap string string).

(** [site[key]] *)
Definition getitem (site : Site) (key : string) : Raises string :=
  match site !! key with
  | Some v => inr v
  | None => inl (KeyError key)
  end.

(** [site.get(key, default)] *)
Definition get_default (site : Site) (key default : string) : string :=
  match site !! key with
  | Some v => v
  | None => default
  end.

Module Verdict.
(** The [result] dict built by [check_username]. *)
Record t : Type := mk {
  site : string;
  url : string;
  status : string;
  error : option string
}.

Definition set_status (s : string) (r : t) : t :=
  mk (site r) (url r) s (error r).
Definition set_error (e : option string) (r : t) : t :=
  mk (site r) (url r) (status r) e.
End Verdict.

Abbreviation Verdict := Verdict.t.

(** [self.results]: the three buckets. *)
Record Results : Type := mkResults {
  found : list Verdict;
  not_found : list Verdict;
  errors : list Verdict
}.

Record UsernameChecker : Type := mkChecker {
  sites_file : string;
  timeout : Z;
  rate_limit : float;
  sites : list Site;
  results : Results
}.

(** ** The transport *)

Record Response : Type := mkResponse {
  status_code : Z;
  text : string
}.

(** [client.get(url, headers=headers, timeout=self.timeout, follow_redirects=True)] *)
Record Request : Type := mkRequest {
  req_url : string;
  req_headers : gmap string string;
  req_timeout : Z;
  req_follow_redirects : bool
}.

Inductive Outcome : Type :=
| Completed (response : Response)
| Raised (e : Exception).

(** [client: httpx.AsyncClient], as far as the probe sees it. *)
Definition Client : Type := Request -> Outcome.

(** What a probe does to the outside world. *)
Inductive Event : Type :=
| Get (request : Request)
| Sleep (delay : float).

Definition USER_AGENTS : list string := [
  "Mozilla/5.0 (Windows NT 10.0; Win64; x64) AppleWebKit/537.36 (KHTML, like Gecko) Chrome/120.0.0.0 Safari/537.36";
  "Mozilla/5.0 (Macintosh; Intel Mac OS X 10_15_7) AppleWebKit/537.36 (KHTML, like Gecko) Chrome/120.0.0.0 Safari/537.36";
  "Mozilla/5.0 (X11; Linux x86_64) AppleWebKit/537.36 (KHTML, like Gecko) Chrome/120.0.0.0 Safari/537.36";
  "Mozilla/5.0 (Windows NT 10.0; Win64; x64; rv:121.0) Gecko/20100101 Firefox/121.0";
  "Mozilla/5.0 (Macintosh; Intel Mac OS X 10_15_7) AppleWebKit/605.1.15 (KHTML, like Gecko) Version/17.1 Safari/605.1.15"
].

(** [random.choice(seq)] when the generator draws [rnd]: the element at
    [rnd] modulo the length, [IndexError] on an empty sequence. *)
Definition random_choice (rnd : nat) (seq : list string) : Raises string :=
  match seq !! (rnd `mod` length seq)%nat with
  | Some x => inr x
  | None => inl (IndexError "Cannot choose from an empty sequence")
  end.

(** ** The body of a [try] statement

    A block runs on the [result] dict, which it may assign to, leaves events
    in the trace and ends normally or with an exception; the assignments made
    before an exception stay. *)
Definition Block (A : Type) : Type :=
  Verdict -> list Event * Verdict * Raises A.

#[global] Instance Block_ret : MRet Block := fun A a r => ([], r, inr a).
#[global] Instance Block_bind : MBind Block := fun A B k m r =>
  let '(t1, r1, x) := m r in
  match x with
  | inl e => (t1, r1, inl e)
  | inr a => let '(t2, r2, y) := k a r1 in (t1 ++ t2, r2, y)
  end.

Definition lift {A : Type} (m : Raises A) : Block A :=
  fun r => ([], r, m).

Definition emit (ev : Event) : Block unit :=
  fun r => ([ev], r, inr tt).

Definition assign (f : Verdict -> Verdict) : Block unit :=
  fun r => ([], f r, inr tt).

(** [await client.get(...)] *)
Definition await_get (client : Client) (request : Request) : Block Response :=
  emit (Get request) ;;
  match client request with
  | Completed response => mret response
  | Raised e => lift (inl e)
  end.

(** [await asyncio.sleep(delay)] *)
Definition await_sleep (delay : float) : Block unit :=
  emit (Sleep delay).

(** [try: body except Exception as e: handler e] *)
Definition try_except (body : Block unit) (handler : Exception -> Block unit) : Block unit :=
  fun r =>
    let '(t1, r1, x) := body r in
    match x with
    | inr _ => (t1, r1, inr tt)
    | inl e => let '(t2, r2, y) := handler e r1 in (t1 ++ t2, r2, y)
    end.

(** ** Completion order

    [asyncio.as_completed] yields the tasks as they finish. Which of the
    pending tasks finishes next is decided outside the program: [schedule]
    gives, step by step, its position among the pending ones (modulo their
    number; the first one once the schedule is used up). *)
Fixpoint drain {A : Type} (schedule : list nat) (n : nat) (pending : list A) : list A :=
  match n with
  | O => []
  | S n =>
      let k := (hd 0 schedule `mod` length pending)%nat in
      match pending !! k with
      | Some task => task :: drain (tl schedule) n (delete k pending)
      | None => []
      end
  end.

Definition as_completed {A : Type} (schedule : list nat) (tasks : list A) : list A :=
  drain schedule (length tasks) tasks.

(** The object a method returns a reference to. *)
Inductive Ref : Type :=
| self_results.

Definition deref (self : UsernameChecker) (ref : Ref) : Results :=
  match ref with
  | self_results => results self
  end.

(** ** [UsernameChecker] *)

Section Checker.
Context `{Builtins}.

(** [__init__] *)
Definition init (sites_file : string) (timeout : Z) (rate_limit : float) : UsernameChecker :=
  {| sites_file := sites_file;
     timeout := timeout;
     rate_limit := rate_limit;
     sites := [];
     results := {| found := []; not_found := []; errors := [] |} |}.

(** The detection logic of [check_username], lines 79 to 103. A
    [detection_type] that is neither of the two falls through both tests. *)
Definition detect (site : Site) (detection_type : string) (response : Response) : Block unit :=
  if String.eqb detection_type "status_code" then
    if status_code response =? 200 then
      assign (Verdict.set_status "found")
    else if status_code response =? 404 then
      assign (Verdict.set_status "not_found")
    else
      assign (Verdict.set_status "unknown") ;;
      assign (Verdict.set_error (Some ("Unexpected status: " +:+ pretty (status_code response))))
  else if String.eqb detection_type "message_body" then
    let error_message := get_default site "error_message" "" in
    if status_code response =? 200 then
      if truthy error_message && str_in (str_lower error_message) (str_lower (text response)) then
        assign (Verdict.set_status "not_found")
      else
        assign (Verdict.set_status "found")
    else if status_code response =? 404 then
      assign (Verdict.set_status "not_found")
    else
      assign (Verdict.set_status "unknown") ;;
      assign (Verdict.set_error (Some ("Status: " +:+ pretty (status_code response))))
  else
    mret tt.

(** The [except] clauses of [check_username], lines 108 to 119. *)
Definition handler (e : Exception) : Block unit :=
  match e with
  | TimeoutException =>
      assign (Verdict.set_status "error") ;;
      assign (Verdict.set_error (Some "Timeout"))
  | ConnectError =>
      assign (Verdict.set_status "error") ;;
      assign (Verdict.set_error (Some "Connection failed"))
  | UnsupportedProtocol =>
      assign (Verdict.set_status "error") ;;
      assign (Verdict.set_error (Some "SSL/TLS error"))
  | OtherException _ str_e =>
      assign (Verdict.set_status "error") ;;
      assign (Verdict.set_error (Some str_e))
  end.

(** The three lookups before the [try], lines 60 to 62. *)
Definition resolve (site : Site) (username : string) : Raises (string * string * string) :=
  site_name ← getitem site "name";
  url_template ← getitem site "url_template";
  url ← str_format url_template username;
  detection_type ← getitem site "detection_type";
  mret (site_name, url, detection_type).

(** [check_username]: the events of the probe, and the [result] it returns
    or the exception it raises. [rnd] is the draw of [random.choice]. *)
Definition check_username (self : UsernameChecker) (site : Site) (username : string)
    (client : Client) (rnd : nat) : list Event * Raises Verdict :=
  match resolve site username with
  | inl e => ([], inl e)
  | inr (site_name, url, detection_type) =>
      let result := Verdict.mk site_name url "unknown" None in
      let '(trace, result, x) :=
        try_except
          (user_agent ← lift (random_choice rnd USER_AGENTS);
           let headers : gmap string string := {[ "User-Agent" := user_agent ]} in
           response ← await_get client (mkRequest url headers (timeout self) true);
           detect site detection_type response ;;
           await_sleep (rate_limit self))
          handler
          result in
      (trace, match x with inl e => inl e | inr _ => inr result end)
  end.

(** [load_sites], given what the sites file holds: only a file that parses
    assigns [self.sites], from its ['sites'] entry or the empty list.
    [Parsed] is a file holding a JSON object whose ['sites'] entry, when it
    has one, is a list of sites; [Unparsable] is a file that [json.load]
    rejects or whose content is not a JSON object. An object whose
    ['sites'] entry is not a list of sites is not a site list at all and is
    outside the model. *)
Inductive SitesFile : Type :=
| Missing
| Unparsable
| Parsed (sites_entry : option (list Site)).

Definition load_sites (self : UsernameChecker) (file : SitesFile) : UsernameChecker * bool :=
  match file with
  | Parsed entry =>
      (mkChecker (sites_file self) (timeout self) (rate_limit self)
                 (default [] entry) (results self), true)
  | Missing | Unparsable => (self, false)
  end.

(** The loop body of [scan_username], lines 156 to 161: [append] to one
    bucket of [self.results]. *)
Definition categorize (result : Verdict) (results : Results) : Results :=
  if String.eqb (Verdict.status result) "found" then
    mkResults (found results ++ [result]) (not_found results) (errors results)
  else if String.eqb (Verdict.status result) "not_found" then
    mkResults (found results) (not_found results ++ [result]) (errors results)
  else
    mkResults (found results) (not_found results) (errors results ++ [result]).

(** [for coro in asyncio.as_completed(tasks): result = await coro; ...]
    over the tasks in completion order. A task that raised makes
    [await coro] raise: the loop is left with the buckets as they are. *)
Fixpoint collect (completed : list (Raises Verdict)) (results : Results)
    : Results * Raises unit :=
  match completed with
  | [] => (results, inr tt)
  | inl e :: _ => (results, inl e)
  | inr result :: rest => collect rest (categorize result results)
  end.

(** [tasks = [self.check_username(site, username, client) for site in
    self.sites]], each with what it will return or raise. [rng i] is the
    draw of the task of the [i]-th site. *)
Definition tasks (self : UsernameChecker) (username : string)
    (client : Client) (rng : nat -> nat) : list (Raises Verdict) :=
  imap (fun i site => (check_username self site username client (rng i)).2)
       (sites self).

(** [scan_username]. [schedule] is the completion order. The method
    returns [self.results] itself, not a copy. *)
Definition scan_username (self : UsernameChecker) (username : string)
    (client : Client) (rng : nat -> nat) (schedule : list nat)
    : UsernameChecker * Raises Ref :=
  let tasks := tasks self username client rng in
  let '(results, x) := collect (as_completed schedule tasks) (results self) in
  (mkChecker (sites_file self) (timeout self) (rate_limit self) (sites self) results,
   x ;; mret self_results).

(** The marker of a site: [site.get('error_message', '')]. *)
Definition marker (site : Site) : string :=
  get_default site "error_message" "".

(** The lowercased body contains the lowercased marker. *)
Definition marked (site : Site) (response : Response) : bool :=
  str_in (str_lower (marker site)) (str_lower (text response)).

(** A newly constructed checker after [load_sites]. *)
Definition loaded (sites_file : string) (timeout : Z) (rate_limit : float)
    (file : SitesFile) : UsernameChecker :=
  (load_sites (init sites_file timeout rate_limit) file).1.

(** The site has the three keys and its template takes the username. *)
Definition resolves (username : string) (site : Site) : Prop :=
  exists site_name url detection_type,
    resolve site username = inr (site_name, url, detection_type).

End Checker.

(** ** An instance of the built-ins

    [str.lower] on text whose letters are ASCII, and [str.format] on
    templates whose replacement fields are plain: [{}], or a name of ASCII
    letters, digits and underscores that is not a number. On those it
    follows the interpreter: [{{] and [}}] stand for a brace, [{username}]
    is replaced, another name raises [KeyError], [{}] raises [IndexError],
    a lone brace raises [ValueError]. Any other field (an attribute, an
    index, a conversion, a format specification, a number, a name with
    other characters) is outside this instance and reported as
    [NotImplementedError]. *)
Module PlainStrings.

Definition lower_ascii (c : ascii) : ascii :=
  let n := nat_of_ascii c in
  if ((65 <=? n) && (n <=? 90))%nat then ascii_of_nat (n + 32) else c.

Fixpoint lower (s : string) : string :=
  match s with
  | EmptyString => EmptyString
  | String c rest => String (lower_ascii c) (lower rest)
  end.

Definition is_digit (c : ascii) : bool :=
  let n := nat_of_ascii c in ((48 <=? n) && (n <=? 57))%nat.

Fixpoint all_digits (s : string) : bool :=
  match s with
  | EmptyString => true
  | String c rest => is_digit c && all_digits rest
  end.

Definition is_word (c : ascii) : bool :=
  let n := nat_of_ascii c in
  (((48 <=? n) && (n <=? 57)) || ((65 <=? n) && (n <=? 90))
   || ((97 <=? n) && (n <=? 122)) || (n =? 95))%nat.

Fixpoint all_word (s : string) : bool :=
  match s with
  | EmptyString => true
  | String c rest => is_word c && all_word rest
  end.

(** The value of the replacement field [name] under [format(username=...)]. *)
Definition field (name username : string) : Raises string :=
  if String.eqb name "" then
    inl (IndexError "Replacement index 0 out of range for positional args tuple")
  else if all_digits name then
    inl (OtherException "NotImplementedError" "numbered field")
  else if negb (all_word name) then
    inl (OtherException "NotImplementedError" "field name with other characters")
  else if String.eqb name "username" then
    inr username
  else
    inl (KeyError name).

(** [in_field] is [None] in literal text and holds the characters read so
    far inside a replacement field. *)
Fixpoint format_from (in_field : option string) (template username : string)
    : Raises string :=
  match in_field, template with
  | None, EmptyString => inr EmptyString
  | None, String c rest =>
      if Ascii.eqb c "{" then
        match rest with
        | EmptyString => inl (ValueError "Single '{' encountered in format string")
        | String c' rest' =>
            if Ascii.eqb c' "{" then String c <$> format_from None rest' username
            else format_from (Some EmptyString) rest username
        end
      else if Ascii.eqb c "}" then
        match rest with
        | EmptyString => inl (ValueError "Single '}' encountered in format string")
        | String c' rest' =>
            if Ascii.eqb c' "}" then String c <$> format_from None rest' username
            else inl (ValueError "Single '}' encountered in format string")
        end
      else String c <$> format_from None rest username
  | Some name, EmptyString => inl (ValueError "expected '}' before end of string")
  | Some name, String c rest =>
      if Ascii.eqb c "}" then
        value ← field name username;
        tail ← format_from None rest username;
        mret (value +:+ tail)
      else if Ascii.eqb c "{" then
        inl (ValueError "unexpected '{' in field name")
      else if Ascii.eqb c "." || Ascii.eqb c "[" || Ascii.eqb c "!" || Ascii.eqb c ":" then
        inl (OtherException "NotImplementedError" "field with attribute, index, conversion or specification")
      else format_from (Some (name +:+ String c EmptyString)) rest username
  end.

Definition format (template username : string) : Raises string :=
  format_from None template username.

#[global] Instance builtins : Builtins :=
  {| str_format := format; str_lower := lower |}.

End PlainStrings.

(** ** Notions used in the statements *)

(** [random.choice(USER_AGENTS)] for the draw [rnd]. *)
Definition drawn (rnd : nat) : string :=
  default "" (USER_AGENTS !! (rnd `mod` length USER_AGENTS)%nat).

(** The request a probe of [url] sends. *)
Definition probe_request (self : UsernameChecker) (url : string) (rnd : nat) : Request :=
  mkRequest url {[ "User-Agent" := drawn rnd ]} (timeout self) true.

(** The [result] dict as the [try] statement finds it. *)
Definition initial_result (site_name url : string) : Verdict :=
  Verdict.mk site_name url "unknown" None.

(** The buckets as [__init__] leaves them. *)
Definition empty_results : Results := mkResults [] [] [].

(** Bucket by bucket, [old] followed by [new]. *)
Definition extend (old new : Results) : Results :=
  mkResults (found old ++ found new)
            (not_found old ++ not_found new)
            (errors old ++ errors new).

Definition in_found (v : Verdict) : Prop := Verdict.status v = "found".
Definition in_not_found (v : Verdict) : Prop := Verdict.status v = "not_found".
Definition in_errors (v : Verdict) : Prop :=
  Verdict.status v <> "found" /\ Verdict.status v <> "not_found".

#[global] Instance in_found_dec v : Decision (in_found v).
Proof. unfold in_found. apply _. Defined.
#[global] Instance in_not_found_dec v : Decision (in_not_found v).
Proof. unfold in_not_found. apply _. Defined.
#[global] Instance in_errors_dec v : Decision (in_errors v).
Proof. unfold in_errors. apply _. Defined.

(** The verdicts of a list, each in the bucket of its status, in the order
    of the list. *)
Definition by_status (verdicts : list Verdict) : Results :=
  mkResults (filter in_found verdicts)
            (filter in_not_found verdicts)
            (filter in_errors verdicts).

(** All verdicts of a result set. *)
Definition all_verdicts (r : Results) : list Verdict :=
  found r ++ not_found r ++ errors r.

(** What the idempotence property compares of a verdict. *)
Definition key (v : Verdict) : string * string * string :=
  (Verdict.status v, Verdict.site v, Verdict.url v).

(** The answer of the client does not depend on the request headers. *)
Definition header_blind (client : Client) : Prop :=
  forall url headers1 headers2 timeout follow,
    client (mkRequest url headers1 timeout follow)
    = client (mkRequest url headers2 timeout follow).

(** The probe ends with the rate-limit sleep. *)
Definition sleeps_last (self : UsernameChecker) (trace : list Event) : Prop :=
  last trace = Some (Sleep (rate_limit self)).

(** ** Sample inputs *)
Module Samples.
Import PlainStrings.

Definition status_site : Site :=
  {[ "name" := "X";
     "url_template" := "https://x.test/{username}";
     "detection_type" := "status_code" ]}.

Definition body_site : Site :=
  {[ "name" := "Forum";
     "url_template" := "https://forum.test/u/{username}";
     "detection_type" := "message_body";
     "error_message" := "user not found" ]}.

(** A [message_body] site without the ['error_message'] key. *)
Definition bare_body_site : Site :=
  {[ "name" := "Forum";
     "url_template" := "https://forum.test/u/{username}";
     "detection_type" := "message_body" ]}.

(** A template whose placeholder is not [username]. *)
Definition mismatched_site : Site :=
  {[ "name" := "Y";
     "url_template" := "https://y.test/{user}";
     "detection_type" := "status_code" ]}.

(** A [detection_type] outside the two the code knows. *)
Definition odd_site : Site :=
  {[ "name" := "Z";
     "url_template" := "https://z.test/{username}";
     "detection_type" := "redirect" ]}.

Definition checker : UsernameChecker := init "sites.json" 10 0.5%float.

Definition x_url : string := "https://x.test/alice".
Definition forum_url : string := "https://forum.test/u/alice".

(** A page that says, in its own case, that there is no such user. *)
Definition sorry_page : Response := mkResponse 200 "<h1>Sorry: User Not Found</h1>".
Definition welcome_page : Response := mkResponse 200 "Welcome johndoe".

Definition unexpected_503 : Verdict :=
  Verdict.mk "X" x_url "unknown" (Some "Unexpected status: 503").

(** The checker of the samples with two sites loaded. *)
Definition two_sites : UsernameChecker :=
  (load_sites checker (Parsed (Some [status_site; body_site]))).1.

Definition answers (code : Z) (body : string) : Client :=
  fun _ => Completed (mkResponse code body).

Definition fails (e : Exception) : Client :=
  fun _ => Raised e.

(** A client that knows the profile only when asked by the fourth of the
    [USER_AGENTS]. *)
Definition picky : Client :=
  fun request =>
    if decide (req_headers request !! "User-Agent" = Some (drawn 3))
    then Completed (mkResponse 200 "")
    else Completed (mkResponse 404 "").
End Samples.

(** ** Console and files

    What [display_results], [export_results] and [main] hand to
    [console.print], [f.write] and [json.dump]. Whether a file opens is
    decided by the file system, an input of [export_results] and [main]. *)

(** The newline character. *)
Definition nl : string := String "010"%char EmptyString.

(** [s * n] on strings. *)
Fixpoint str_times (s : string) (n : nat) : string :=
  match n with
  | O => EmptyString
  | S n => s +:+ str_times s n
  end.

(** [table.add_column(header, style=style, width=width)] *)
Record Column : Type := mkColumn {
  header : string;
  style : string;
  width : option Z
}.

(** A [rich.table.Table] as [display_results] builds it. *)
Record Table : Type := mkTable {
  title : string;
  show_header : bool;
  header_style : string;
  columns : list Column;
  rows : list (list string)
}.

(** An argument of [console.print]. *)
Inductive Printed : Type :=
| Text (markup : string)
| Rendered (table : Table).

(** The ['summary'] entry of the exported data. *)
Record Summary : Type := mkSummary {
  summary_found : nat;
  summary_not_found : nat;
  summary_errors : nat
}.

(** The [export_data] dict of [export_results], with its four keys. *)
Record ExportData : Type := mkExportData {
  export_username : string;
  export_scan_date : string;
  export_summary : Summary;
  export_results_entry : list Verdict
}.

(** What is written to a file opened with [open(filename, 'w')]: the
    arguments of the [f.write] calls in order, or the arguments of
    [json.dump]. *)
Inductive Written : Type :=
| Writes (chunks : list string)
| JsonDump (data : ExportData) (indent : Z).

Record File : Type := mkFile {
  filename : string;
  written : Written
}.


(** [display_results]: the calls of [console.print]. *)
Definition display_results (self : UsernameChecker) (username : string) : list Printed :=
  [Text nl]
  ++ (match found (results self) with
      | _ :: _ =>
          let table :=
            mkTable
              ("[bold green]✓ Found (" +:+ pretty (length (found (results self)))
               +:+ " platforms)[/bold green]")
              true "bold green"
              [mkColumn "Platform" "cyan" (Some 20); mkColumn "URL" "blue" None]
              ((fun result => [Verdict.site result; Verdict.url result])
                 <$> found (results self)) in
          [Rendered table]
      | [] => [Text "[yellow]No accounts found.[/yellow]"]
      end)
  ++ (match errors (results self) with
      | _ :: _ =>
          [Text (nl +:+ "[dim]⚠ " +:+ pretty (length (errors (results self)))
                 +:+ " errors/timeouts occurred[/dim]")]
      | [] => []
      end).

(** [export_results]: the file written, the calls of [console.print], and
    how the method ends. [timestamp] is
    [datetime.now().strftime("%Y%m%d_%H%M%S")]; [scan_date] is what the
    second [datetime.now()] gives, as [str] for the text file and as
    [isoformat()] for the JSON file. [open_w filename] is what
    [open(filename, 'w')] does, which the file system decides: it returns,
    or it raises (no such directory, no permission) and then nothing is
    written or printed and the exception leaves the method. A file that
    opened takes what is written to it. *)
Definition export_results (self : UsernameChecker) (username format : string)
    (timestamp scan_date : string) (open_w : string -> Raises unit)
    : list File * list Printed * Raises unit :=
  if String.eqb format "txt" then
    let filename := username +:+ "_" +:+ timestamp +:+ ".txt" in
    match open_w filename with
    | inl e => ([], [], inl e)
    | inr _ =>
    let chunks :=
      ["Username Check Results: " +:+ username +:+ nl;
       "Scan Date: " +:+ scan_date +:+ nl;
       str_times "=" 60 +:+ nl +:+ nl]
      ++ (match found (results self) with
          | _ :: _ =>
              ["FOUND ON " +:+ pretty (length (found (results self)))
               +:+ " PLATFORMS:" +:+ nl +:+ nl]
              ++ (result ← found (results self);
                  ["  • " +:+ Verdict.site result +:+ nl;
                   "    " +:+ Verdict.url result +:+ nl +:+ nl])
          | [] => ["No accounts found." +:+ nl]
          end) in
    ([mkFile filename (Writes chunks)],
     [Text ("[green]✓[/green] Results exported to [cyan]" +:+ filename +:+ "[/cyan]")],
     inr tt)
    end
  else if String.eqb format "json" then
    let filename := username +:+ "_" +:+ timestamp +:+ ".json" in
    let export_data :=
      mkExportData username scan_date
        (mkSummary (length (found (results self)))
                   (length (not_found (results self)))
                   (length (errors (results self))))
        (found (results self)) in
    match open_w filename with
    | inl e => ([], [], inl e)
    | inr _ =>
        ([mkFile filename (JsonDump export_data 2)],
         [Text ("[green]✓[/green] Results exported to [cyan]" +:+ filename
                +:+ "[/cyan]")],
         inr tt)
    end
  else
    ([], [], inr tt).

(** ** [main] *)

Module Args.
(** The values [--export] accepts. *)
Inductive Export : Type :=
| txt
| json.

Definition to_str (choice : Export) : string :=
  match choice with
  | txt => "txt"
  | json => "json"
  end.

(** The namespace [parser.parse_args()] returns. *)
Record t : Type := mk {
  username : string;
  sites : string;
  timeout : Z;
  rate_limit : float;
  export : option Export;
  no_color : bool
}.
End Args.

(** What a run of [main] leaves: the files, what it printed once the scan
    was over, and how it ended. *)
Record Run : Type := mkRun {
  files : list File;
  after_scan : list Printed;
  ended : Raises unit
}.

Section Main.
Context `{Builtins}.

(** The four lines that end [main], lines 279 to 282. *)
Definition scan_complete (self : UsernameChecker) : list Printed :=
  [Text (nl +:+ "[bold]Scan Complete![/bold]");
   Text ("  Found: [green]" +:+ pretty (length (found (results self))) +:+ "[/green]");
   Text ("  Not Found: [dim]" +:+ pretty (length (not_found (results self))) +:+ "[/dim]");
   Text ("  Errors: [yellow]" +:+ pretty (length (errors (results self)))
         +:+ "[/yellow]" +:+ nl)].

(** [main], from the parsed arguments on. The banner, the message of
    [load_sites] and the panel and progress bar of [scan_username] come
    before the results and are not kept. [file] is what the sites file
    holds; [timestamp], [scan_date] and [open_w] are as in
    [export_results]. An exception of [export_results] leaves [main] after
    the results were displayed and before the closing lines. *)
Definition main (args : Args.t) (file : SitesFile) (client : Client)
    (rng : nat -> nat) (schedule : list nat) (timestamp scan_date : string)
    (open_w : string -> Raises unit) : Run :=
  let checker := init (Args.sites args) (Args.timeout args) (Args.rate_limit args) in
  let '(checker, ok) := load_sites checker file in
  if negb ok then mkRun [] [] (inr tt)
  else
    let '(checker, scanned) :=
      scan_username checker (Args.username args) client rng schedule in
    match scanned with
    | inl e => mkRun [] [] (inl e)
    | inr _ =>
        let shown := display_results checker (Args.username args) in
        let '(files, exported, x) :=
          match Args.export args with
          | Some choice =>
              export_results checker (Args.username args) (Args.to_str choice)
                timestamp scan_date open_w
          | None => ([], [], inr tt)
          end in
        match x with
        | inl e => mkRun files (shown ++ exported) (inl e)
        | inr _ => mkRun files (shown ++ exported ++ scan_complete checker) (inr tt)
        end
    end.

End Main.

(** ** What goes wrong with a request

    The conditions under which a request fails, and the exception [httpx]
    raises for each. A failure to establish the connection, a failed TLS
    handshake included (a certificate that does not verify, no common
    protocol version), is a [ConnectError]; [UnsupportedProtocol] is raised
    for a URL whose scheme is missing or is not [http] or [https]. *)
Inductive Failure : Type :=
| TimedOut
| ConnectionRefused
| TlsHandshakeFailed
| SchemeUnsupported
| OtherFailure (type_name : string) (str_e : string).

Definition httpx_raises (failure : Failure) : Exception :=
  match failure with
  | TimedOut => TimeoutException
  | ConnectionRefused => ConnectError
  | TlsHandshakeFailed => ConnectError
  | SchemeUnsupported => UnsupportedProtocol
  | OtherFailure type_name str_e => OtherException type_name str_e
  end.

(** ** Further notions used in the statements *)

(** The name of the exported file. *)
Definition export_filename (username timestamp : string) (choice : Args.Export) : string :=
  username +:+ "_" +:+ timestamp +:+ "." +:+ Args.to_str choice.

(** Each bucket holds results of its own status only. *)
Definition well_bucketed (r : Results) : Prop :=
  Forall (fun v => Verdict.status v = "found") (found r)
  /\ Forall (fun v => Verdict.status v = "not_found") (not_found r)
  /\ Forall (fun v => Verdict.status v = "unknown" \/ Verdict.status v = "error")
            (errors r).

(** ** More sample inputs *)
Module MoreSamples.
Import PlainStrings Samples.

(** A site without the ['name'] key. *)
Definition nameless_site : Site :=
  {[ "url_template" := "https://n.test/{user}";
     "detection_type" := "status_code" ]}.

(** A client that finds the profile on x.test only. *)
Definition x_only : Client :=
  fun request =>
    if String.prefix "https://x.test/" (req_url request)
    then Completed (mkResponse 200 "")
    else Completed (mkResponse 404 "").

Definition found_x : Verdict := Verdict.mk "X" x_url "found" None.
Definition not_found_forum : Verdict := Verdict.mk "Forum" forum_url "not_found" None.

Definition timed_out_z : Verdict :=
  Verdict.mk "Z" "https://z.test/alice" "error" (Some "Timeout").
Definition not_found_y : Verdict :=
  Verdict.mk "Y" "https://y.test/alice" "not_found" None.

(** A checker after a scan of three sites. *)
Definition scanned : UsernameChecker :=
  mkChecker "sites.json" 10 0.5%float [status_site; body_site; odd_site]
            (mkResults [found_x] [not_found_forum] [timed_out_z]).

(** A checker with the same [found] bucket and other results beside it. *)
Definition scanned_otherwise : UsernameChecker :=
  mkChecker "other.json" 5 1%float [status_site]
            (mkResults [found_x] [not_found_y] [unexpected_503]).

(** A checker whose second site does not resolve. *)
Definition half_broken : UsernameChecker :=
  (load_sites checker (Parsed (Some [status_site; mismatched_site]))).1.

Definition args (export : option Args.Export) : Args.t :=
  Args.mk "alice" "sites.json" 10 0.5%float export false.

(** A working directory without subdirectories: a name with a slash does
    not open. *)
Definition flat_directory : string -> Raises unit :=
  fun filename =>
    if str_in "/" filename
    then inl (OtherException "FileNotFoundError"
                ("[Errno 2] No such file or directory: '" +:+ filename +:+ "'"))
    else inr tt.

(** The arguments of a run for the username [a/b]. *)
Definition slash_args (export : option Args.Export) : Args.t :=
  Args.mk "a/b" "sites.json" 10 0.5%float export false.
End MoreSamples.

(** * Properties of the probe *)

Section Probe.
Context `{Builtins}.

Lemma random_choice_USER_AGENTS (rnd : nat) :
  random_choice rnd USER_AGENTS = inr (drawn rnd).
Proof.
  unfold random_choice, drawn.
  destruct (USER_AGENTS !! (rnd `mod` length USER_AGENTS)%nat) as [ua|] eqn:Hua.
  - reflexivity.
  - apply lookup_ge_None in Hua.
    assert (rnd `mod` length USER_AGENTS < length USER_AGENTS)%nat
      by (apply Nat.mod_upper_bound; discriminate).
    lia.
Qed.

(** The detection logic only assigns: no event, no exception. *)
Lemma detect_assigns (site : Site) (detection_type : string) (response : Response)
    (result : Verdict) :
  detect site detection_type response result
  = ([], (detect site detection_type response result).1.2, inr tt).
Proof.
  unfold detect.
  repeat (match goal with |- context [if ?b then _ else _] => destruct b end);
    reflexivity.
Qed.

Lemma handler_assigns (e : Exception) (result : Verdict) :
  handler e result = ([], (handler e result).1.2, inr tt).
Proof. destruct e; reflexivity. Qed.

(** What [resolve] needs of a site. *)
Lemma resolve_inr (site : Site) (username site_name url detection_type : string) :
  resolve site username = inr (site_name, url, detection_type)
  <-> site !! "name" = Some site_name
      /\ (exists url_template,
            site !! "url_template" = Some url_template
            /\ str_format url_template username = inr url)
      /\ site !! "detection_type" = Some detection_type.
Proof.
  unfold resolve, getitem.
  destruct (site !! "name") as [n|]; cbn.
  2: { split; [discriminate | intros [? _]; discriminate]. }
  destruct (site !! "url_template") as [t|]; cbn.
  2: { split; [discriminate | intros (_ & (? & ? & _) & _); discriminate]. }
  destruct (str_format t username) as [e|u] eqn:Hf; cbn.
  { split; [discriminate |].
    intros (_ & (t' & Ht & Hu) & _). simplify_eq. congruence. }
  destruct (site !! "detection_type") as [d|]; cbn.
  2: { split; [discriminate | intros (_ & _ & ?); discriminate]. }
  split.
  - intros [= <- <- <-]. eauto 10.
  - intros (? & (t' & ? & Hu) & ?). simplify_eq.
    rewrite Hf in Hu. injection Hu as ->. reflexivity.
Qed.

(** The probe of a site that resolves, by the outcome of its request. *)
Lemma check_username_resolved (self : UsernameChecker) (site : Site)
    (username : string) (client : Client) (rnd : nat)
    (site_name url detection_type : string) :
  resolve site username = inr (site_name, url, detection_type) ->
  check_username self site username client rnd =
    let request := probe_request self url rnd in
    let result := initial_result site_name url in
    match client request with
    | Completed response =>
        ([Get request; Sleep (rate_limit self)],
         inr (detect site detection_type response result).1.2)
    | Raised e =>
        ([Get request], inr (handler e result).1.2)
    end.
Proof.
  intros Hres. unfold check_username. rewrite Hres.
  unfold try_except, mbind, Block_bind, lift.
  rewrite random_choice_USER_AGENTS.
  unfold await_get, mbind, Block_bind, emit, lift, mret, Block_ret.
  fold (probe_request self url rnd). fold (initial_result site_name url).
  cbv zeta.
  destruct (client (probe_request self url rnd)) as [response|e].
  - rewrite detect_assigns. reflexivity.
  - rewrite handler_assigns. reflexivity.
Qed.

(** A site that does not resolve: the exception leaves the probe, before
    any request. *)
Lemma check_username_unresolved (self : UsernameChecker) (site : Site)
    (username : string) (client : Client) (rnd : nat) (e : Exception) :
  resolve site username = inl e ->
  check_username self site username client rnd = ([], inl e).
Proof. intros Hres. unfold check_username. rewrite Hres. reflexivity. Qed.

Lemma detect_status_code (site : Site) (response : Response) (result : Verdict) :
  (detect site "status_code" response result).1.2 =
    if status_code response =? 200 then Verdict.set_status "found" result
    else if status_code response =? 404 then Verdict.set_status "not_found" result
    else Verdict.set_error
           (Some ("Unexpected status: " +:+ pretty (status_code response)))
           (Verdict.set_status "unknown" result).
Proof.
  unfold detect. cbn [String.eqb Ascii.eqb Bool.eqb].
  destruct (status_code response =? 200); [reflexivity |].
  destruct (status_code response =? 404); reflexivity.
Qed.

Lemma detect_message_body (site : Site) (response : Response) (result : Verdict) :
  (detect site "message_body" response result).1.2 =
    let error_message := get_default site "error_message" "" in
    if status_code response =? 200 then
      if truthy error_message
         && str_in (str_lower error_message) (str_lower (text response))
      then Verdict.set_status "not_found" result
      else Verdict.set_status "found" result
    else if status_code response =? 404 then Verdict.set_status "not_found" result
    else Verdict.set_error
           (Some ("Status: " +:+ pretty (status_code response)))
           (Verdict.set_status "unknown" result).
Proof.
  unfold detect. cbn [String.eqb Ascii.eqb Bool.eqb]. cbv zeta.
  destruct (status_code response =? 200).
  - destruct (truthy _ && str_in _ _); reflexivity.
  - destruct (status_code response =? 404); reflexivity.
Qed.

(** A probe that returns a result probed a site that resolves. *)
Lemma check_username_returns (self : UsernameChecker) (site : Site)
    (username : string) (client : Client) (rnd : nat)
    (trace : list Event) (result : Verdict) :
  check_username self site username client rnd = (trace, inr result) ->
  exists detection_type,
    resolve site username
    = inr (Verdict.site result, Verdict.url result, detection_type).
Proof.
  intros Hrun.
  destruct (resolve site username) as [e|[[site_name url] detection_type]] eqn:Hres.
  - rewrite (check_username_unresolved _ _ _ _ _ _ Hres) in Hrun. discriminate.
  - rewrite (check_username_resolved _ _ _ _ _ _ _ _ Hres) in Hrun.
    cbv zeta in Hrun. exists detection_type.
    destruct (client _) as [response|e]; injection Hrun as _ <-.
    + unfold detect.
      repeat (match goal with |- context [if ?b then _ else _] => destruct b end);
        reflexivity.
    + destruct e; reflexivity.
Qed.

End Probe.



(** * Claims about the probe *)

Section ProbeClaims.
Context `{Builtins}.

Local Ltac run_probe Hres Hout :=
  rewrite (check_username_resolved _ _ _ _ _ _ _ _ Hres); cbv zeta; rewrite Hout.

(** Split a conjunction into its parts, leaving implications alone. *)
Local Ltac conjuncts :=
  repeat match goal with |- _ /\ _ => split end.

Local Ltac other_code H200 H404 :=
  apply Z.eqb_neq in H200; apply Z.eqb_neq in H404; rewrite H200, H404.

(** C5. A site with [detection_type] ["status_code"] whose request
    completes: HTTP 200 gives status [found], HTTP 404 gives [not_found],
    any other code gives [unknown] with the error ["Unexpected status: "]
    followed by the code, so that HTTP 500 gives
    ["Unexpected status: 500"]. *)
Theorem status_code_classification (self : UsernameChecker) (site : Site)
    (username : string) (client : Client) (rnd : nat)
    (site_name url : string) (response : Response) :
  resolve site username = inr (site_name, url, "status_code") ->
  client (probe_request self url rnd) = Completed response ->
  exists trace result,
    check_username self site username client rnd = (trace, inr result)
    /\ (status_code response = 200 ->
        Verdict.status result = "found" /\ Verdict.error result = None)
    /\ (status_code response = 404 ->
        Verdict.status result = "not_found" /\ Verdict.error result = None)
    /\ (status_code response <> 200 -> status_code response <> 404 ->
        Verdict.status result = "unknown"
        /\ Verdict.error result
           = Some ("Unexpected status: " +:+ pretty (status_code response)))
    /\ (status_code response = 500 ->
        Verdict.status result = "unknown"
        /\ Verdict.error result = Some "Unexpected status: 500").
Proof.
  intros Hres Hout. run_probe Hres Hout.
  eexists _, _. split; [reflexivity |].
  rewrite detect_status_code.
  conjuncts; try (intros ->; split; reflexivity).
  intros H200 H404. other_code H200 H404. split; reflexivity.
Qed.

(** C6. A site with [detection_type] ["message_body"] whose request
    completes: HTTP 404 gives [not_found] whatever the body; HTTP 200 gives
    [not_found] when the marker is not empty and the lowercased body
    contains the lowercased marker, and [found] otherwise; any other code
    gives [unknown] with the error ["Status: "] followed by the code. *)
Theorem message_body_classification (self : UsernameChecker) (site : Site)
    (username : string) (client : Client) (rnd : nat)
    (site_name url : string) (response : Response) :
  resolve site username = inr (site_name, url, "message_body") ->
  client (probe_request self url rnd) = Completed response ->
  exists trace result,
    check_username self site username client rnd = (trace, inr result)
    /\ (status_code response = 404 ->
        Verdict.status result = "not_found" /\ Verdict.error result = None)
    /\ (status_code response = 200 ->
        marker site <> "" -> marked site response = true ->
        Verdict.status result = "not_found" /\ Verdict.error result = None)
    /\ (status_code response = 200 ->
        marker site = "" \/ marked site response = false ->
        Verdict.status result = "found" /\ Verdict.error result = None)
    /\ (status_code response <> 200 -> status_code response <> 404 ->
        Verdict.status result = "unknown"
        /\ Verdict.error result
           = Some ("Status: " +:+ pretty (status_code response))).
Proof.
  intros Hres Hout. run_probe Hres Hout.
  eexists _, _. split; [reflexivity |].
  rewrite detect_message_body. cbv zeta.
  fold (marker site). fold (marked site response).
  conjuncts.
  - intros ->. split; reflexivity.
  - intros -> Hne ->. destruct (marker site); [congruence | split; reflexivity].
  - intros -> [-> | ->]; [split; reflexivity |].
    rewrite andb_false_r. split; reflexivity.
  - intros H200 H404. other_code H200 H404. split; reflexivity.
Qed.

(** C10. A ["message_body"] site without the ['error_message'] key: the
    probe returns a result all the same, the marker being the empty
    string; HTTP 200 gives [found] whatever the body, HTTP 404 gives
    [not_found]. *)
Theorem missing_error_message (self : UsernameChecker) (site : Site)
    (username : string) (client : Client) (rnd : nat)
    (site_name url : string) (response : Response) :
  resolve site username = inr (site_name, url, "message_body") ->
  site !! "error_message" = None ->
  client (probe_request self url rnd) = Completed response ->
  marker site = ""
  /\ exists trace result,
       check_username self site username client rnd = (trace, inr result)
       /\ (status_code response = 200 ->
           Verdict.status result = "found" /\ Verdict.error result = None)
       /\ (status_code response = 404 ->
           Verdict.status result = "not_found" /\ Verdict.error result = None).
Proof.
  intros Hres Hkey Hout.
  assert (Hdef : marker site = "")
    by (unfold marker, get_default; rewrite Hkey; reflexivity).
  split; [exact Hdef |].
  run_probe Hres Hout.
  eexists _, _. split; [reflexivity |].
  rewrite detect_message_body. cbv zeta. fold (marker site). rewrite Hdef.
  conjuncts; intros ->; split; reflexivity.
Qed.

(** The [except] clauses, class by class. A probe whose request raises
    returns a result with status [error]: for a [TimeoutException] with the
    error ["Timeout"], for a [ConnectError] with ["Connection failed"], for
    an [UnsupportedProtocol] with ["SSL/TLS error"], and for any other
    exception with its message. *)
Theorem failure_classification (self : UsernameChecker) (site : Site)
    (username : string) (client : Client) (rnd : nat)
    (site_name url detection_type : string) (e : Exception) :
  resolve site username = inr (site_name, url, detection_type) ->
  client (probe_request self url rnd) = Raised e ->
  exists trace result,
    check_username self site username client rnd = (trace, inr result)
    /\ Verdict.status result = "error"
    /\ (e = TimeoutException -> Verdict.error result = Some "Timeout")
    /\ (e = ConnectError -> Verdict.error result = Some "Connection failed")
    /\ (e = UnsupportedProtocol -> Verdict.error result = Some "SSL/TLS error")
    /\ (forall type_name str_e,
          e = OtherException type_name str_e ->
          Verdict.error result = Some str_e).
Proof.
  intros Hres Hout. run_probe Hres Hout.
  eexists _, _. split; [reflexivity |].
  destruct e; cbn; conjuncts; try discriminate; try reflexivity.
  intros ? ? [= _ <-]. reflexivity.
Qed.

(** C8. In the result of a probe of a site whose [detection_type] is
    ["status_code"] or ["message_body"], the error is set exactly when the
    status is [unknown] or [error]. *)
Theorem error_iff_unknown_or_error (self : UsernameChecker) (site : Site)
    (username : string) (client : Client) (rnd : nat)
    (detection_type : string) (trace : list Event) (result : Verdict) :
  site !! "detection_type" = Some detection_type ->
  detection_type = "status_code" \/ detection_type = "message_body" ->
  check_username self site username client rnd = (trace, inr result) ->
  is_Some (Verdict.error result)
  <-> Verdict.status result = "unknown" \/ Verdict.status result = "error".
Proof.
  intros Hdt Henum Hrun.
  destruct (check_username_returns _ _ _ _ _ _ _ Hrun) as [dt Hres].
  assert (dt = detection_type) as ->.
  { apply resolve_inr in Hres. destruct Hres as (_ & _ & Hdt'). congruence. }
  rewrite (check_username_resolved _ _ _ _ _ _ _ _ Hres) in Hrun.
  cbv zeta in Hrun.
  assert (Hno : forall s : string,
             s <> "unknown" -> s <> "error" ->
             is_Some (@None string) <-> s = "unknown" \/ s = "error").
  { intros s ? ?. split; [intros [? ?]; discriminate | intros [?|?]; congruence]. }
  assert (Hyes : forall (s d : string),
             s = "unknown" \/ s = "error" ->
             is_Some (Some d) <-> s = "unknown" \/ s = "error").
  { intros s d Hs. split; [intros _; exact Hs | intros _; eexists; reflexivity]. }
  destruct (client _) as [response|e]; injection Hrun as _ <-.
  - destruct Henum as [-> | ->];
      [rewrite detect_status_code | rewrite detect_message_body; cbv zeta];
      repeat (match goal with |- context [if ?b then _ else _] => destruct b end);
      cbn; first [apply Hno; discriminate | apply Hyes; auto].
  - destruct e; cbn; apply Hyes; auto.
Qed.

(** C2, as amended. The probe of a site that has the keys ['name'],
    ['url_template'] and ['detection_type'] and whose template resolves for
    the username never raises: it returns a result, and when the request
    failed the result has status [error] and a diagnostic. *)
Theorem probe_never_raises_when_resolved (self : UsernameChecker) (site : Site)
    (username : string) (client : Client) (rnd : nat)
    (site_name url detection_type : string) :
  resolve site username = inr (site_name, url, detection_type) ->
  exists trace result,
    check_username self site username client rnd = (trace, inr result)
    /\ Verdict.site result = site_name
    /\ Verdict.url result = url
    /\ (forall e,
          client (probe_request self url rnd) = Raised e ->
          Verdict.status result = "error"
          /\ exists diagnostic, Verdict.error result = Some diagnostic).
Proof.
  intros Hres.
  destruct (check_username self site username client rnd) as [trace [e|result]] eqn:Hrun.
  - rewrite (check_username_resolved _ _ _ _ _ _ _ _ Hres) in Hrun.
    cbv zeta in Hrun. destruct (client _); discriminate.
  - exists trace, result. split; [reflexivity |].
    destruct (check_username_returns _ _ _ _ _ _ _ Hrun) as [dt Hres'].
    rewrite Hres in Hres'. injection Hres' as <- <- <-.
    conjuncts; [reflexivity | reflexivity |].
    intros e He.
    rewrite (check_username_resolved _ _ _ _ _ _ _ _ Hres) in Hrun.
    cbv zeta in Hrun. rewrite He in Hrun. injection Hrun as _ <-.
    destruct e; cbn; split; eauto.
Qed.

(** C3, as amended. The probe of a site that resolves sends one request.
    When the request completes with a response, whatever the detection
    makes of it, the probe then sleeps for [rate_limit] and returns; when
    the request fails, the probe returns its [error] result without
    sleeping. *)
Theorem sleeps_after_a_response_only (self : UsernameChecker) (site : Site)
    (username : string) (client : Client) (rnd : nat)
    (site_name url detection_type : string) :
  resolve site username = inr (site_name, url, detection_type) ->
  exists trace result,
    check_username self site username client rnd = (trace, inr result)
    /\ (forall response,
          client (probe_request self url rnd) = Completed response ->
          trace = [Get (probe_request self url rnd); Sleep (rate_limit self)]
          /\ sleeps_last self trace)
    /\ (forall e,
          client (probe_request self url rnd) = Raised e ->
          trace = [Get (probe_request self url rnd)]
          /\ ~ sleeps_last self trace
          /\ Verdict.status result = "error").
Proof.
  intros Hres. set (request := probe_request self url rnd).
  rewrite (check_username_resolved _ _ _ _ _ _ _ _ Hres). cbv zeta.
  fold request.
  destruct (client request) as [response|e]; eexists _, _;
    (split; [reflexivity |]); split; try discriminate.
  - intros _ _. split; reflexivity.
  - intros _ _. conjuncts.
    + reflexivity.
    + unfold sleeps_last. cbn. discriminate.
    + destruct e; reflexivity.
Qed.

End ProbeClaims.

(** * Properties of the scan *)

Section Completion.
Context {A B : Type}.
Implicit Types (schedule : list nat) (pending tasks : list A).

(** Whatever the schedule, every task completes once. *)
Lemma drain_Permutation schedule n pending :
  length pending = n -> drain schedule n pending ≡ₚ pending.
Proof.
  revert schedule pending.
  induction n as [|n IH]; intros schedule pending Hlen; cbn.
  - destruct pending; [reflexivity | discriminate].
  - set (k := (hd 0 schedule `mod` length pending)%nat).
    assert (Hk : (k < length pending)%nat)
      by (apply Nat.mod_upper_bound; lia).
    destruct (pending !! k) as [task|] eqn:Htask.
    + rewrite (delete_Permutation pending k task Htask) at 2.
      constructor. apply IH. rewrite length_delete by eauto. lia.
    + apply lookup_ge_None in Htask. lia.
Qed.

Lemma as_completed_Permutation schedule tasks :
  as_completed schedule tasks ≡ₚ tasks.
Proof. apply drain_Permutation. reflexivity. Qed.

Lemma drain_fmap (f : A -> B) schedule n pending :
  drain schedule n (f <$> pending) = f <$> drain schedule n pending.
Proof.
  revert schedule pending.
  induction n as [|n IH]; intros schedule pending; cbn; [reflexivity |].
  rewrite length_fmap, list_lookup_fmap.
  destruct (pending !! _) as [task|]; cbn; [| reflexivity].
  rewrite <- list_fmap_delete, IH. reflexivity.
Qed.

Lemma as_completed_fmap (f : A -> B) schedule tasks :
  as_completed schedule (f <$> tasks) = f <$> as_completed schedule tasks.
Proof. unfold as_completed. rewrite length_fmap. apply drain_fmap. Qed.

(** Every order of completion is the order of some schedule. *)
Lemma as_completed_any_order tasks (order : list A) :
  tasks ≡ₚ order -> exists schedule, as_completed schedule tasks = order.
Proof.
  unfold as_completed. revert tasks.
  induction order as [|task order IH]; intros tasks Hperm.
  - apply Permutation_nil_r in Hperm as ->. exists []. reflexivity.
  - assert (Hin : task ∈ tasks) by (rewrite Hperm; left).
    apply list_elem_of_lookup in Hin as [k Hk].
    pose proof (lookup_lt_Some _ _ _ Hk) as Hlt.
    assert (Hrest : delete k tasks ≡ₚ order).
    { apply (Permutation_cons_inv (a := task)).
      rewrite <- (delete_Permutation tasks k task Hk). exact Hperm. }
    destruct (IH _ Hrest) as [schedule Hs].
    exists (k :: schedule).
    destruct tasks as [|t0 tasks']; [cbn in Hlt; lia |].
    cbn [length drain hd tl].
    rewrite Nat.mod_small by exact Hlt. rewrite Hk.
    f_equal. rewrite <- Hs. f_equal.
    rewrite length_delete by eauto. cbn. lia.
Qed.
End Completion.

Section Buckets.

Lemma filter_none {P : Verdict -> Prop} `{forall v, Decision (P v)} (l : list Verdict) :
  Forall (fun v => ~ P v) l -> filter P l = [].
Proof.
  induction 1 as [|v l Hv _ IH]; [reflexivity |].
  rewrite filter_cons, decide_False by exact Hv. exact IH.
Qed.

Lemma filter_all {P : Verdict -> Prop} `{forall v, Decision (P v)} (l : list Verdict) :
  Forall P l -> filter P l = l.
Proof.
  induction 1 as [|v l Hv _ IH]; [reflexivity |].
  rewrite filter_cons, decide_True by exact Hv. congruence.
Qed.

Lemma extend_empty_r (r : Results) : extend r (by_status []) = r.
Proof. destruct r. unfold extend. cbn. rewrite !app_nil_r. reflexivity. Qed.

Lemma extend_empty_l (r : Results) : extend empty_results r = r.
Proof. destruct r. reflexivity. Qed.

Lemma extend_assoc (a b c : Results) :
  extend (extend a b) c = extend a (extend b c).
Proof. unfold extend. cbn. rewrite !app_assoc. reflexivity. Qed.

Lemma by_status_app (l1 l2 : list Verdict) :
  by_status (l1 ++ l2) = extend (by_status l1) (by_status l2).
Proof. unfold by_status, extend. cbn. rewrite !filter_app. reflexivity. Qed.

(** One round of the loop puts the result in the bucket of its status. *)
Lemma categorize_by_status (v : Verdict) (r : Results) :
  categorize v r = extend r (by_status [v]).
Proof.
  unfold categorize, by_status, extend. cbn [found not_found errors].
  rewrite !filter_cons, !filter_nil.
  destruct (String.eqb_spec (Verdict.status v) "found") as [Hf|Hf].
  - rewrite (decide_True (P := in_found v)) by exact Hf.
    rewrite (decide_False (P := in_not_found v))
      by (unfold in_not_found; rewrite Hf; discriminate).
    rewrite (decide_False (P := in_errors v)) by (intros [? _]; contradiction).
    rewrite !app_nil_r. reflexivity.
  - rewrite (decide_False (P := in_found v)) by exact Hf.
    destruct (String.eqb_spec (Verdict.status v) "not_found") as [Hn|Hn].
    + rewrite (decide_True (P := in_not_found v)) by exact Hn.
      rewrite (decide_False (P := in_errors v)) by (intros [_ ?]; contradiction).
      rewrite !app_nil_r. reflexivity.
    + rewrite (decide_False (P := in_not_found v)) by exact Hn.
      rewrite (decide_True (P := in_errors v)) by (split; assumption).
      rewrite !app_nil_r. reflexivity.
Qed.

Lemma foldl_categorize (vs : list Verdict) (r : Results) :
  foldl (fun r v => categorize v r) r vs = extend r (by_status vs).
Proof.
  revert r. induction vs as [|v vs IH]; intros r; cbn [foldl].
  - symmetry. apply extend_empty_r.
  - rewrite IH, categorize_by_status, extend_assoc.
    rewrite <- by_status_app. reflexivity.
Qed.

(** The three buckets hold every verdict once. *)
Lemma by_status_Permutation (vs : list Verdict) :
  all_verdicts (by_status vs) ≡ₚ vs.
Proof.
  unfold all_verdicts, by_status. cbn [found not_found errors].
  induction vs as [|v vs IH]; [reflexivity |].
  rewrite !filter_cons.
  destruct (decide (in_found v)) as [Hf|Hf].
  - rewrite decide_False by (unfold in_not_found, in_found in *; congruence).
    rewrite decide_False by (intros [? _]; contradiction).
    cbn. constructor. exact IH.
  - destruct (decide (in_not_found v)) as [Hn|Hn].
    + rewrite decide_False by (intros [_ ?]; contradiction).
      change ((v :: ?l) ++ ?l') with (v :: l ++ l').
      rewrite <- Permutation_middle. constructor. exact IH.
    + rewrite decide_True by (split; assumption).
      rewrite app_assoc, <- Permutation_middle, <- app_assoc.
      constructor. exact IH.
Qed.

Lemma by_status_length (vs : list Verdict) :
  (length (found (by_status vs)) + length (not_found (by_status vs))
   + length (errors (by_status vs)) = length vs)%nat.
Proof.
  rewrite <- (by_status_Permutation vs) at 4.
  unfold all_verdicts. rewrite !length_app. lia.
Qed.

(** The buckets of a list do not depend, as multisets, on its order. *)
Lemma by_status_order (vs vs' : list Verdict) :
  vs ≡ₚ vs' ->
  found (by_status vs) ≡ₚ found (by_status vs')
  /\ not_found (by_status vs) ≡ₚ not_found (by_status vs')
  /\ errors (by_status vs) ≡ₚ errors (by_status vs').
Proof.
  intros Hperm. unfold by_status. cbn [found not_found errors].
  rewrite Hperm. auto.
Qed.

End Buckets.

Section Scan.
Context `{Builtins}.

(** The loop over tasks that all returned. *)
Lemma collect_returned (vs : list Verdict) (r : Results) :
  collect (inr <$> vs) r = (extend r (by_status vs), inr tt).
Proof.
  rewrite <- foldl_categorize. revert r.
  induction vs as [|v vs IH]; intros r; [reflexivity |]. apply IH.
Qed.

(** The loop over tasks one of which raised. *)
Lemma collect_raised (completed : list (Raises Verdict)) (r : Results) (e : Exception) :
  inl e ∈ completed -> exists e', (collect completed r).2 = inl e'.
Proof.
  revert r. induction completed as [|[e0|v] completed IH]; intros r Hin.
  - inversion Hin.
  - exists e0. reflexivity.
  - apply elem_of_cons in Hin as [Heq|Hin]; [discriminate |].
    apply IH. exact Hin.
Qed.

(** The tasks do not look at the buckets. *)
Lemma tasks_results (f : string) (t : Z) (d : float) (l : list Site) (r r' : Results)
    (username : string) (client : Client) (rng : nat -> nat) :
  tasks (mkChecker f t d l r) username client rng
  = tasks (mkChecker f t d l r') username client rng.
Proof. reflexivity. Qed.

(** The tasks of sites that resolve all return. *)
Lemma tasks_resolved (self : UsernameChecker) (username : string)
    (client : Client) (rng : nat -> nat) :
  Forall (resolves username) (sites self) ->
  exists vs, tasks self username client rng = inr <$> vs.
Proof.
  unfold tasks. generalize (sites self) as l. intros l.
  generalize rng as g. induction l as [|site l IH]; intros g Hall.
  - exists []. reflexivity.
  - apply Forall_cons in Hall as [(site_name & url & dt & Hres) Hall].
    destruct (IH (g ∘ S) Hall) as [vs Hvs].
    rewrite imap_cons.
    rewrite (check_username_resolved self _ _ client (g 0%nat) _ _ _ Hres).
    cbv zeta.
    destruct (client _) as [response|e]; eexists (_ :: vs);
      rewrite fmap_cons; f_equal; exact Hvs.
Qed.

(** A task returns only if its site resolves. *)
Lemma tasks_returned (self : UsernameChecker) (username : string)
    (client : Client) (rng : nat -> nat) (vs : list Verdict) :
  tasks self username client rng = inr <$> vs ->
  Forall (resolves username) (sites self).
Proof.
  unfold tasks. generalize (sites self) as l. intros l. revert vs.
  generalize rng as g. induction l as [|site l IH]; intros g vs Hvs.
  - constructor.
  - destruct vs as [|v vs]; [discriminate |].
    rewrite imap_cons, fmap_cons in Hvs. injection Hvs as Hv Hvs.
    constructor; [| apply (IH (g ∘ S) _ Hvs)].
    destruct (check_username self site username client (g 0%nat)) as [trace x] eqn:Hrun.
    cbn in Hv. subst x.
    destruct (check_username_returns _ _ _ _ _ _ _ Hrun) as [dt Hres].
    do 3 eexists. exact Hres.
Qed.

(** With a client that is blind to the headers, the draws do not matter. *)
Lemma tasks_header_blind (self : UsernameChecker) (username : string)
    (client : Client) (rng rng' : nat -> nat) :
  header_blind client ->
  tasks self username client rng = tasks self username client rng'.
Proof.
  intros Hblind. unfold tasks. apply imap_ext. intros i site _.
  destruct (resolve site username) as [e|[[site_name url] dt]] eqn:Hres.
  - rewrite !(check_username_unresolved _ _ _ _ _ _ Hres). reflexivity.
  - rewrite !(check_username_resolved _ _ _ _ _ _ _ _ Hres). cbv zeta.
    unfold probe_request.
    rewrite (Hblind url _ {[ "User-Agent" := drawn (rng' i) ]}).
    destruct (client _); reflexivity.
Qed.

(** A scan whose tasks all return. *)
Lemma scan_username_returned (self : UsernameChecker) (username : string)
    (client : Client) (rng : nat -> nat) (schedule : list nat) (vs : list Verdict) :
  tasks self username client rng = inr <$> vs ->
  scan_username self username client rng schedule =
    (mkChecker (sites_file self) (timeout self) (rate_limit self) (sites self)
               (extend (results self) (by_status (as_completed schedule vs))),
     inr self_results).
Proof.
  intros Hvs. unfold scan_username. rewrite Hvs, as_completed_fmap, collect_returned.
  reflexivity.
Qed.

(** A scan returns exactly when all its sites resolve; otherwise it raises
    what a probe raised. *)
Lemma scan_username_returns_iff (self : UsernameChecker) (username : string)
    (client : Client) (rng : nat -> nat) (schedule : list nat) :
  (scan_username self username client rng schedule).2 = inr self_results
  <-> Forall (resolves username) (sites self).
Proof.
  split.
  - intros Hret. apply Forall_forall. intros site Hsite.
    destruct (resolve site username) as [e|[[site_name url] dt]] eqn:Hres;
      [| do 3 eexists; exact Hres].
    exfalso.
    apply list_elem_of_lookup in Hsite as [i Hi].
    assert (Hin : inl e ∈ as_completed schedule (tasks self username client rng)).
    { rewrite as_completed_Permutation. unfold tasks.
      apply elem_of_lookup_imap. exists i, site. split; [| exact Hi].
      rewrite (check_username_unresolved _ _ _ _ _ _ Hres). reflexivity. }
    destruct (collect_raised _ (results self) _ Hin) as [e' He'].
    unfold scan_username in Hret.
    destruct (collect _ _) as [r x]. cbn in He', Hret. subst x. discriminate.
  - intros Hall.
    destruct (tasks_resolved self username client rng Hall) as [vs Hvs].
    rewrite (scan_username_returned _ _ _ _ _ _ Hvs). reflexivity.
Qed.

(** When every request fails, every result has the status [error]. *)
Lemma tasks_all_failed (self : UsernameChecker) (username : string)
    (client : Client) (rng : nat -> nat) (vs : list Verdict) :
  (forall request, exists e, client request = Raised e) ->
  tasks self username client rng = inr <$> vs ->
  Forall (fun v => Verdict.status v = "error") vs.
Proof.
  intros Hfail Hvs. apply Forall_forall. intros v Hv.
  assert (Hin : inr v ∈ tasks self username client rng)
    by (rewrite Hvs; apply list_elem_of_fmap_2; exact Hv).
  unfold tasks in Hin. apply elem_of_lookup_imap in Hin as (i & site & Heq & _).
  destruct (resolve site username) as [e|[[site_name url] dt]] eqn:Hres.
  - rewrite (check_username_unresolved _ _ _ _ _ _ Hres) in Heq. discriminate.
  - rewrite (check_username_resolved _ _ _ _ _ _ _ _ Hres) in Heq. cbv zeta in Heq.
    destruct (Hfail (probe_request self url (rng i))) as [e He].
    rewrite He in Heq. injection Heq as ->. destruct e; reflexivity.
Qed.

End Scan.

(** Every scan of a checker returns the same object: a reference kept from
    an earlier scan shows the buckets as the latest scan left them. *)
Lemma returned_reference_is_shared (self : UsernameChecker) (earlier later : Ref) :
  deref self earlier = deref self later.
Proof. destruct earlier, later. reflexivity. Qed.

(** * Claims about the scan *)

Section ScanClaims.
Context `{Builtins}.

(** C1, as amended. A scan of sites that resolve completes, and it has appended to the
    buckets one result for each site: the results of the tasks, each once,
    each in the one bucket of its status, so that the three buckets have
    grown by as many results as there are sites. On a checker whose buckets
    are empty, as the constructor leaves them, the returned buckets hold
    as many results as there are sites. This is so also when every request
    fails: then all of them are in [errors]. *)
Theorem scan_partitions_the_results (self : UsernameChecker) (username : string)
    (client : Client) (rng : nat -> nat) (schedule : list nat) :
  Forall (resolves username) (sites self) ->
  exists self' new,
    scan_username self username client rng schedule = (self', inr self_results)
    /\ sites self' = sites self
    /\ deref self' self_results = extend (results self) (by_status new)
    /\ inr <$> new ≡ₚ tasks self username client rng
    /\ all_verdicts (by_status new) ≡ₚ new
    /\ (length (found (by_status new)) + length (not_found (by_status new))
        + length (errors (by_status new)) = length (sites self))%nat
    /\ (results self = empty_results ->
        (length (found (deref self' self_results))
         + length (not_found (deref self' self_results))
         + length (errors (deref self' self_results)) = length (sites self))%nat)
    /\ ((forall request, exists e, client request = Raised e) ->
        found (by_status new) = [] /\ not_found (by_status new) = []
        /\ errors (by_status new) = new).
Proof.
  intros Hall.
  destruct (tasks_resolved self username client rng Hall) as [vs Hvs].
  pose proof (as_completed_Permutation schedule vs) as Hperm.
  assert (Hlen : length (as_completed schedule vs) = length (sites self)).
  { rewrite Hperm.
    rewrite <- (length_fmap (@inr Exception Verdict) vs), <- Hvs.
    unfold tasks. apply length_imap. }
  eexists _, (as_completed schedule vs).
  split; [apply (scan_username_returned _ _ _ _ _ _ Hvs) |].
  split; [reflexivity |]. split; [reflexivity |].
  split; [rewrite Hvs, Hperm; reflexivity |].
  split; [apply by_status_Permutation |].
  split; [rewrite by_status_length; exact Hlen |].
  split.
  - intros Hempty. cbn [deref results]. rewrite Hempty, extend_empty_l.
    rewrite by_status_length. exact Hlen.
  - intros Hfail.
    pose proof (tasks_all_failed _ _ _ _ _ Hfail Hvs) as Herr.
    rewrite <- Hperm in Herr.
    unfold by_status. cbn [found not_found errors].
    split; [| split].
    + apply filter_none. eapply Forall_impl; [exact Herr |].
      intros v Hv. unfold in_found. rewrite Hv. discriminate.
    + apply filter_none. eapply Forall_impl; [exact Herr |].
      intros v Hv. unfold in_not_found. rewrite Hv. discriminate.
    + apply filter_all. eapply Forall_impl; [exact Herr |].
      intros v Hv. unfold in_errors. rewrite Hv. split; discriminate.
Qed.

(** C9. A scan of a newly constructed checker whose site list is empty,
    whatever the sites file held or lacked, completes without an
    exception and returns three empty buckets. *)
Theorem scan_of_no_sites (sites_file : string) (timeout : Z) (rate_limit : float)
    (file : SitesFile) (username : string)
    (client : Client) (rng : nat -> nat) (schedule : list nat) :
  sites (loaded sites_file timeout rate_limit file) = [] ->
  exists self',
    scan_username (loaded sites_file timeout rate_limit file)
      username client rng schedule
    = (self', inr self_results)
    /\ found (deref self' self_results) = []
    /\ not_found (deref self' self_results) = []
    /\ errors (deref self' self_results) = [].
Proof.
  intros Hsites. eexists.
  unfold scan_username, tasks. rewrite Hsites. cbn.
  split; [reflexivity |].
  destruct file; cbn; auto.
Qed.

(** C7, as amended. Take a checker with empty buckets, sites that resolve
    and a client whose answer does not depend on the request headers. Two
    scans of it for the same username, each from the buckets as the
    constructor left them, complete and return, bucket by bucket, the same
    results up to order, whatever the two completion orders and the draws
    of the User-Agent. A second scan on the checker that the first one
    left returns, in each bucket, the results of the first scan twice. *)
Theorem rescan (self : UsernameChecker) (username : string) (client : Client)
    (rng1 rng2 : nat -> nat) (schedule1 schedule2 : list nat) :
  results self = empty_results ->
  Forall (resolves username) (sites self) ->
  header_blind client ->
  exists self1 self2 self12,
    scan_username self username client rng1 schedule1 = (self1, inr self_results)
    /\ scan_username self username client rng2 schedule2 = (self2, inr self_results)
    /\ found (results self1) ≡ₚ found (results self2)
    /\ not_found (results self1) ≡ₚ not_found (results self2)
    /\ errors (results self1) ≡ₚ errors (results self2)
    /\ key <$> all_verdicts (results self1) ≡ₚ key <$> all_verdicts (results self2)
    /\ scan_username self1 username client rng2 schedule2 = (self12, inr self_results)
    /\ found (results self12) ≡ₚ found (results self1) ++ found (results self1)
    /\ not_found (results self12)
       ≡ₚ not_found (results self1) ++ not_found (results self1)
    /\ errors (results self12) ≡ₚ errors (results self1) ++ errors (results self1).
Proof.
  intros Hempty Hall Hblind.
  destruct (tasks_resolved self username client rng1 Hall) as [vs Hvs].
  assert (Hvs2 : tasks self username client rng2 = inr <$> vs)
    by (rewrite <- Hvs; apply tasks_header_blind; exact Hblind).
  destruct (by_status_order (as_completed schedule1 vs) (as_completed schedule2 vs))
    as (Hf & Hn & He).
  { rewrite !as_completed_Permutation. reflexivity. }
  eexists _, _, _.
  split; [apply (scan_username_returned _ _ _ _ _ _ Hvs) |].
  split; [apply (scan_username_returned _ _ _ _ _ _ Hvs2) |].
  cbn [results]. rewrite Hempty, !extend_empty_l.
  split; [exact Hf |]. split; [exact Hn |]. split; [exact He |].
  split.
  { unfold all_verdicts. rewrite Hf, Hn, He. reflexivity. }
  split.
  { apply scan_username_returned. destruct self. exact Hvs2. }
  cbn [results extend found not_found errors].
  rewrite Hf, Hn, He. auto.
Qed.

End ScanClaims.

(** * The claims on sample inputs *)

Section Examples.
Import PlainStrings Samples.

Lemma status_code_classification_witness :
  resolve status_site "alice" = inr ("X", x_url, "status_code")
  /\ answers 500 "" (probe_request checker x_url 3) = Completed (mkResponse 500 "")
  /\ exists trace result,
       check_username checker status_site "alice" (answers 500 "") 3
       = (trace, inr result)
       /\ Verdict.status result = "unknown"
       /\ Verdict.error result = Some "Unexpected status: 500".
Proof.
  assert (Hres : resolve status_site "alice" = inr ("X", x_url, "status_code"))
    by (vm_compute; reflexivity).
  split; [exact Hres |]. split; [reflexivity |].
  destruct (status_code_classification checker status_site "alice" (answers 500 "") 3
              "X" x_url (mkResponse 500 "") Hres eq_refl)
    as (trace & result & Hrun & _ & _ & _ & H500).
  exists trace, result. split; [exact Hrun |]. apply H500. reflexivity.
Defined.

Lemma message_body_classification_witness :
  resolve body_site "alice" = inr ("Forum", forum_url, "message_body")
  /\ answers 200 (text sorry_page) (probe_request checker forum_url 0)
     = Completed sorry_page
  /\ marker body_site = "user not found"
  /\ exists trace result,
       check_username checker body_site "alice" (answers 200 (text sorry_page)) 0
       = (trace, inr result)
       /\ Verdict.status result = "not_found".
Proof.
  assert (Hres : resolve body_site "alice" = inr ("Forum", forum_url, "message_body"))
    by (vm_compute; reflexivity).
  split; [exact Hres |]. split; [reflexivity |].
  split; [vm_compute; reflexivity |].
  destruct (message_body_classification checker body_site "alice"
              (answers 200 (text sorry_page)) 0 "Forum" forum_url sorry_page
              Hres eq_refl)
    as (trace & result & Hrun & _ & Hmarked & _).
  exists trace, result. split; [exact Hrun |].
  apply Hmarked; [reflexivity | vm_compute; discriminate | vm_compute; reflexivity].
Defined.

Lemma missing_error_message_witness :
  resolve bare_body_site "alice" = inr ("Forum", forum_url, "message_body")
  /\ bare_body_site !! "error_message" = None
  /\ answers 200 (text sorry_page) (probe_request checker forum_url 0)
     = Completed sorry_page
  /\ exists trace result,
       check_username checker bare_body_site "alice"
         (answers 200 (text sorry_page)) 0
       = (trace, inr result)
       /\ Verdict.status result = "found".
Proof.
  assert (Hres : resolve bare_body_site "alice"
                 = inr ("Forum", forum_url, "message_body"))
    by (vm_compute; reflexivity).
  assert (Hkey : bare_body_site !! "error_message" = None)
    by (vm_compute; reflexivity).
  split; [exact Hres |]. split; [exact Hkey |]. split; [reflexivity |].
  destruct (missing_error_message checker bare_body_site "alice"
              (answers 200 (text sorry_page)) 0 "Forum" forum_url sorry_page
              Hres Hkey eq_refl)
    as (_ & trace & result & Hrun & H200 & _).
  exists trace, result. split; [exact Hrun |]. apply H200. reflexivity.
Defined.

Lemma failure_classification_witness :
  resolve status_site "alice" = inr ("X", x_url, "status_code")
  /\ fails UnsupportedProtocol (probe_request checker x_url 1)
     = Raised UnsupportedProtocol
  /\ exists trace result,
       check_username checker status_site "alice" (fails UnsupportedProtocol) 1
       = (trace, inr result)
       /\ Verdict.status result = "error"
       /\ Verdict.error result = Some "SSL/TLS error".
Proof.
  assert (Hres : resolve status_site "alice" = inr ("X", x_url, "status_code"))
    by (vm_compute; reflexivity).
  split; [exact Hres |]. split; [reflexivity |].
  destruct (failure_classification checker status_site "alice"
              (fails UnsupportedProtocol) 1 "X" x_url "status_code"
              UnsupportedProtocol Hres eq_refl)
    as (trace & result & Hrun & Hstatus & _ & _ & Hssl & _).
  exists trace, result. split; [exact Hrun |]. split; [exact Hstatus |].
  apply Hssl. reflexivity.
Defined.

Lemma error_iff_unknown_or_error_witness :
  status_site !! "detection_type" = Some "status_code"
  /\ check_username checker status_site "alice" (answers 503 "") 0
     = ([Get (probe_request checker x_url 0); Sleep (rate_limit checker)],
        inr unexpected_503)
  /\ (is_Some (Verdict.error unexpected_503)
      <-> Verdict.status unexpected_503 = "unknown"
          \/ Verdict.status unexpected_503 = "error").
Proof.
  assert (Hdt : status_site !! "detection_type" = Some "status_code")
    by (vm_compute; reflexivity).
  assert (Hrun : check_username checker status_site "alice" (answers 503 "") 0
                 = ([Get (probe_request checker x_url 0); Sleep (rate_limit checker)],
                    inr unexpected_503))
    by (vm_compute; reflexivity).
  split; [exact Hdt |]. split; [exact Hrun |].
  exact (error_iff_unknown_or_error checker status_site "alice" (answers 503 "") 0
           "status_code" _ unexpected_503 Hdt (or_introl eq_refl) Hrun).
Defined.

(** A [detection_type] other than the two: neither test applies, the
    status stays [unknown] and no error is set. *)
Lemma other_detection_type :
  (check_username checker odd_site "alice" (answers 200 "") 0).2
  = inr (Verdict.mk "Z" "https://z.test/alice" "unknown" None).
Proof. vm_compute. reflexivity. Qed.

Lemma probe_never_raises_when_resolved_witness :
  resolve status_site "alice" = inr ("X", x_url, "status_code")
  /\ exists trace result,
       check_username checker status_site "alice"
         (fails (OtherException "ReadError" "connection reset")) 0
       = (trace, inr result)
       /\ Verdict.status result = "error"
       /\ exists diagnostic, Verdict.error result = Some diagnostic.
Proof.
  assert (Hres : resolve status_site "alice" = inr ("X", x_url, "status_code"))
    by (vm_compute; reflexivity).
  split; [exact Hres |].
  destruct (probe_never_raises_when_resolved checker status_site "alice"
              (fails (OtherException "ReadError" "connection reset")) 0
              "X" x_url "status_code" Hres)
    as (trace & result & Hrun & _ & _ & Hfail).
  exists trace, result. split; [exact Hrun |].
  exact (Hfail _ eq_refl).
Defined.

(** C2, as stated, fails: the template of this site has no [username]
    field to fill, [format] raises [KeyError] before the [try], and the
    exception leaves the probe and then the scan. *)
Lemma probe_raises_on_mismatched_template :
  check_username checker mismatched_site "alice" (answers 200 "") 0
  = ([], inl (KeyError "user"))
  /\ (scan_username (load_sites checker (Parsed (Some [status_site; mismatched_site]))).1
        "alice" (answers 200 "") id []).2
     = inl (KeyError "user").
Proof. split; vm_compute; reflexivity. Qed.

Lemma sleeps_after_a_response_only_witness :
  resolve status_site "alice" = inr ("X", x_url, "status_code")
  /\ exists result,
       check_username checker status_site "alice" (answers 404 "") 0
       = ([Get (probe_request checker x_url 0); Sleep 0.5%float], inr result).
Proof.
  assert (Hres : resolve status_site "alice" = inr ("X", x_url, "status_code"))
    by (vm_compute; reflexivity).
  split; [exact Hres |].
  destruct (sleeps_after_a_response_only checker status_site "alice"
              (answers 404 "") 0 "X" x_url "status_code" Hres)
    as (trace & result & Hrun & Hdone & _).
  destruct (Hdone (mkResponse 404 "") eq_refl) as [Htrace _].
  exists result. rewrite Hrun, Htrace. reflexivity.
Defined.

(** C3, as stated, fails: after a timeout the probe returns its result
    with no sleep. *)
Lemma no_sleep_after_timeout :
  check_username checker status_site "alice" (fails TimeoutException) 0
  = ([Get (probe_request checker x_url 0)],
     inr (Verdict.mk "X" x_url "error" (Some "Timeout")))
  /\ ~ sleeps_last checker [Get (probe_request checker x_url 0)]
  /\ Sleep (rate_limit checker) ∉ [Get (probe_request checker x_url 0)].
Proof.
  split; [vm_compute; reflexivity |]. split.
  - unfold sleeps_last. cbn. discriminate.
  - intros Hin. apply list_elem_of_singleton in Hin. discriminate.
Qed.

(** The body of the welcome page does not hold the marker. *)
Lemma welcome_page_found :
  (check_username checker body_site "johndoe" (answers 200 (text welcome_page)) 0).2
  = inr (Verdict.mk "Forum" "https://forum.test/u/johndoe" "found" None).
Proof. vm_compute. reflexivity. Qed.

Lemma two_sites_resolve : Forall (resolves "alice") (sites two_sites).
Proof.
  repeat constructor.
  - exists "X", x_url, "status_code". vm_compute. reflexivity.
  - exists "Forum", forum_url, "message_body". vm_compute. reflexivity.
Defined.

Lemma scan_partitions_the_results_witness :
  Forall (resolves "alice") (sites two_sites)
  /\ (forall request : Request, exists e, fails ConnectError request = Raised e)
  /\ exists self',
       scan_username two_sites "alice" (fails ConnectError) id [1%nat]
       = (self', inr self_results)
       /\ found (results self') = []
       /\ not_found (results self') = []
       /\ length (errors (results self')) = 2%nat.
Proof.
  split; [exact two_sites_resolve |].
  assert (Hfail : forall request : Request,
             exists e, fails ConnectError request = Raised e)
    by (intros request; exists ConnectError; reflexivity).
  split; [exact Hfail |].
  destruct (scan_partitions_the_results two_sites "alice" (fails ConnectError)
              id [1%nat] two_sites_resolve)
    as (self' & new & Hscan & _ & Hbuckets & _ & _ & Hlen & _ & Hfailed).
  destruct (Hfailed Hfail) as (Hf & Hn & He).
  exists self'. split; [exact Hscan |].
  cbn [deref] in Hbuckets. rewrite Hbuckets.
  cbn [extend found not_found errors two_sites results].
  rewrite Hf, Hn. rewrite Hf, Hn in Hlen.
  split; [reflexivity |]. split; [reflexivity |]. exact Hlen.
Defined.

Lemma scan_of_no_sites_witness :
  sites (loaded "sites.json" 10 0.5%float (Parsed (Some []))) = []
  /\ exists self',
       scan_username (loaded "sites.json" 10 0.5%float (Parsed (Some [])))
         "alice" (answers 200 "") id []
       = (self', inr self_results)
       /\ found (deref self' self_results) = []
       /\ not_found (deref self' self_results) = []
       /\ errors (deref self' self_results) = [].
Proof.
  split; [reflexivity |].
  exact (scan_of_no_sites "sites.json" 10 0.5%float (Parsed (Some []))
           "alice" (answers 200 "") id [] eq_refl).
Defined.

Lemma answers_header_blind (code : Z) (body : string) :
  header_blind (answers code body).
Proof. intros url headers1 headers2 t follow. reflexivity. Defined.

Lemma rescan_witness :
  results two_sites = empty_results
  /\ Forall (resolves "alice") (sites two_sites)
  /\ header_blind (answers 200 "no such page")
  /\ exists self1 self2,
       scan_username two_sites "alice" (answers 200 "no such page") id [0%nat]
       = (self1, inr self_results)
       /\ scan_username two_sites "alice" (answers 200 "no such page") S [1%nat]
          = (self2, inr self_results)
       /\ key <$> all_verdicts (results self1) ≡ₚ key <$> all_verdicts (results self2).
Proof.
  split; [reflexivity |]. split; [exact two_sites_resolve |].
  split; [apply answers_header_blind |].
  destruct (rescan two_sites "alice" (answers 200 "no such page") id S
              [0%nat] [1%nat] eq_refl two_sites_resolve
              (answers_header_blind 200 "no such page"))
    as (self1 & self2 & _ & Hscan1 & Hscan2 & _ & _ & _ & Hkeys & _).
  exists self1, self2. auto.
Defined.

(** C7, as stated, fails when the scan is repeated on the same checker:
    the first scan returns one result, the second returns it twice. *)
Lemma second_scan_accumulates :
  exists self1 self2,
    scan_username (load_sites checker (Parsed (Some [status_site]))).1
      "alice" (answers 200 "") id []
    = (self1, inr self_results)
    /\ scan_username self1 "alice" (answers 200 "") id [] = (self2, inr self_results)
    /\ length (all_verdicts (deref self1 self_results)) = 1%nat
    /\ length (all_verdicts (deref self2 self_results)) = 2%nat
    /\ ~ (key <$> all_verdicts (deref self2 self_results)
          ≡ₚ key <$> all_verdicts (deref self1 self_results)).
Proof.
  eexists _, _. split; [vm_compute; reflexivity |].
  split; [vm_compute; reflexivity |].
  split; [reflexivity |]. split; [reflexivity |].
  intros Hperm. apply Permutation_length in Hperm. discriminate Hperm.
Qed.

(** Why the client of [rescan] must be blind to the headers: a client that
    is a function of the whole request may answer two scans differently,
    the User-Agent being drawn anew for each. *)
Lemma draws_matter_to_picky :
  exists self1 self2 v1 v2,
    scan_username (load_sites checker (Parsed (Some [status_site]))).1
      "alice" picky (fun _ => 3%nat) []
    = (self1, inr self_results)
    /\ scan_username (load_sites checker (Parsed (Some [status_site]))).1
         "alice" picky (fun _ => 0%nat) []
       = (self2, inr self_results)
    /\ all_verdicts (results self1) = [v1]
    /\ all_verdicts (results self2) = [v2]
    /\ Verdict.status v1 = "found"
    /\ Verdict.status v2 = "not_found".
Proof.
  eexists _, _, _, _.
  split; [vm_compute; reflexivity |]. split; [vm_compute; reflexivity |].
  split; [reflexivity |]. split; [reflexivity |]. split; reflexivity.
Qed.

End Examples.

(** * Further properties of the probe *)

Section ProbeFacts.
Context `{Builtins}.

Lemma drawn_in_pool (rnd : nat) : drawn rnd ∈ USER_AGENTS.
Proof.
  unfold drawn.
  destruct (USER_AGENTS !! (rnd `mod` length USER_AGENTS)%nat) as [ua|] eqn:Hua.
  - apply list_elem_of_lookup. eauto.
  - apply lookup_ge_None in Hua.
    assert (rnd `mod` length USER_AGENTS < length USER_AGENTS)%nat
      by (apply Nat.mod_upper_bound; discriminate).
    lia.
Qed.

(** The statuses the detection logic assigns. *)
Lemma detect_status (site : Site) (detection_type : string) (response : Response)
    (site_name url : string) :
  Verdict.status (detect site detection_type response (initial_result site_name url)).1.2
  ∈ ["found"; "not_found"; "unknown"].
Proof.
  unfold detect.
  repeat (match goal with |- context [if ?b then _ else _] => destruct b end);
    cbn; rewrite !elem_of_cons; auto.
Qed.

(** X1. A probe that returns a result has sent exactly one request: a GET
    of the URL in the result, which is the template of the site filled with
    the username, with the timeout of the checker, following redirects, and
    with one header, a User-Agent out of [USER_AGENTS]. After it comes at
    most one sleep, of [rate_limit]. The result names the site. *)
Theorem probe_sends_one_request (self : UsernameChecker) (site : Site)
    (username : string) (client : Client) (rnd : nat)
    (trace : list Event) (result : Verdict) :
  check_username self site username client rnd = (trace, inr result) ->
  exists user_agent url_template,
    user_agent ∈ USER_AGENTS
    /\ site !! "name" = Some (Verdict.site result)
    /\ site !! "url_template" = Some url_template
    /\ str_format url_template username = inr (Verdict.url result)
    /\ (trace = [Get (mkRequest (Verdict.url result) {[ "User-Agent" := user_agent ]}
                                (timeout self) true)]
        \/ trace = [Get (mkRequest (Verdict.url result) {[ "User-Agent" := user_agent ]}
                                   (timeout self) true);
                    Sleep (rate_limit self)]).
Proof.
  intros Hrun.
  destruct (check_username_returns _ _ _ _ _ _ _ Hrun) as [dt Hres].
  pose proof Hres as Hkeys. apply resolve_inr in Hkeys.
  destruct Hkeys as (Hname & (url_template & Htpl & Hfmt) & _).
  exists (drawn rnd), url_template.
  split; [apply drawn_in_pool |].
  split; [exact Hname |]. split; [exact Htpl |]. split; [exact Hfmt |].
  rewrite (check_username_resolved _ _ _ _ _ _ _ _ Hres) in Hrun. cbv zeta in Hrun.
  unfold probe_request in Hrun.
  destruct (client _); injection Hrun as <- _; [right | left]; reflexivity.
Qed.

(** X2. The probe raises exactly what the three lookups before the [try]
    raise, and then it has sent no request and has not slept. *)
Theorem probe_raises_before_any_request (self : UsernameChecker) (site : Site)
    (username : string) (client : Client) (rnd : nat) (e : Exception) :
  ((check_username self site username client rnd).2 = inl e
   <-> resolve site username = inl e)
  /\ ((check_username self site username client rnd).2 = inl e ->
      (check_username self site username client rnd).1 = []).
Proof.
  destruct (resolve site username) as [e'|[[site_name url] dt]] eqn:Hres.
  - rewrite (check_username_unresolved _ _ _ _ _ _ Hres). cbn.
    split; [| intros _; reflexivity].
    split; intros [= ->]; reflexivity.
  - rewrite (check_username_resolved _ _ _ _ _ _ _ _ Hres). cbv zeta.
    destruct (client _); cbn; split; try (split; discriminate); discriminate.
Qed.

(** X3. Which key is missing decides the exception, in the order of the
    lookups: without ['name'] the probe raises [KeyError('name')] whatever
    else the site holds; with it but without ['url_template'],
    [KeyError('url_template')]; an exception of [format] comes next; and
    ['detection_type'] is missed only when all that went well. *)
Theorem missing_keys (self : UsernameChecker) (site : Site)
    (username : string) (client : Client) (rnd : nat) :
  (site !! "name" = None ->
   check_username self site username client rnd = ([], inl (KeyError "name")))
  /\ (is_Some (site !! "name") -> site !! "url_template" = None ->
      check_username self site username client rnd
      = ([], inl (KeyError "url_template")))
  /\ (forall url_template e,
        is_Some (site !! "name") ->
        site !! "url_template" = Some url_template ->
        str_format url_template username = inl e ->
        check_username self site username client rnd = ([], inl e))
  /\ (forall url_template url,
        is_Some (site !! "name") ->
        site !! "url_template" = Some url_template ->
        str_format url_template username = inr url ->
        site !! "detection_type" = None ->
        check_username self site username client rnd
        = ([], inl (KeyError "detection_type"))).
Proof.
  split; [| split; [| split]].
  - intros Hname. apply check_username_unresolved.
    unfold resolve, getitem. rewrite Hname. reflexivity.
  - intros [n Hname] Htpl. apply check_username_unresolved.
    unfold resolve, getitem. rewrite Hname, Htpl. reflexivity.
  - intros t e [n Hname] Htpl Hfmt. apply check_username_unresolved.
    unfold resolve, getitem. rewrite Hname, Htpl. cbn. rewrite Hfmt. reflexivity.
  - intros t u [n Hname] Htpl Hfmt Hdt. apply check_username_unresolved.
    unfold resolve, getitem. rewrite Hname, Htpl. cbn. rewrite Hfmt. cbn.
    rewrite Hdt. reflexivity.
Qed.

(** X4. With a [detection_type] that is neither ["status_code"] nor
    ["message_body"], a response is not looked at: whatever its code and
    body, the result has status [unknown] and no error, and the probe
    sleeps as after any response. *)
Theorem other_detection_types (self : UsernameChecker) (site : Site)
    (username : string) (client : Client) (rnd : nat)
    (site_name url detection_type : string) (response : Response) :
  resolve site username = inr (site_name, url, detection_type) ->
  detection_type <> "status_code" ->
  detection_type <> "message_body" ->
  client (probe_request self url rnd) = Completed response ->
  check_username self site username client rnd
  = ([Get (probe_request self url rnd); Sleep (rate_limit self)],
     inr (Verdict.mk site_name url "unknown" None)).
Proof.
  intros Hres Hsc Hmb Hout.
  rewrite (check_username_resolved _ _ _ _ _ _ _ _ Hres). cbv zeta. rewrite Hout.
  unfold detect.
  apply String.eqb_neq in Hsc. apply String.eqb_neq in Hmb.
  rewrite Hsc, Hmb. reflexivity.
Qed.

(** X5. The status of a result is one of [found], [not_found], [unknown]
    and [error], and it is [error] exactly when the request raised: no
    response, whatever its code, gives an [error] result. *)
Theorem error_status_iff_request_raised (self : UsernameChecker) (site : Site)
    (username : string) (client : Client) (rnd : nat)
    (trace : list Event) (result : Verdict) :
  check_username self site username client rnd = (trace, inr result) ->
  Verdict.status result ∈ ["found"; "not_found"; "unknown"; "error"]
  /\ (Verdict.status result = "error"
      <-> exists e, client (probe_request self (Verdict.url result) rnd) = Raised e).
Proof.
  intros Hrun.
  destruct (check_username_returns _ _ _ _ _ _ _ Hrun) as [dt Hres].
  rewrite (check_username_resolved _ _ _ _ _ _ _ _ Hres) in Hrun. cbv zeta in Hrun.
  destruct (client _) as [response|e] eqn:Hout; injection Hrun as _ Hresult.
  - pose proof (detect_status site dt response (Verdict.site result) (Verdict.url result))
      as Hst.
    rewrite Hresult in Hst. rewrite !elem_of_cons in Hst.
    split; [rewrite !elem_of_cons; tauto |].
    split; [| intros [e He]; discriminate].
    intros Herr. rewrite Herr in Hst.
    destruct Hst as [?|[?|[?|Hnil]]]; try discriminate. inversion Hnil.
  - assert (Hst : Verdict.status result = "error")
      by (rewrite <- Hresult; destruct e; reflexivity).
    split; [rewrite Hst, !elem_of_cons; auto |].
    split; [intros _; exists e; reflexivity | intros _; exact Hst].
Qed.

End ProbeFacts.

(** * Further properties of the scan *)

Section ScanFacts.
Context `{Builtins}.

(** The loop over tasks that returned, then over the others. *)
Lemma collect_app_returned (vs : list Verdict) (rest : list (Raises Verdict))
    (r : Results) :
  collect ((inr <$> vs) ++ rest) r = collect rest (extend r (by_status vs)).
Proof.
  revert r. induction vs as [|v vs IH]; intros r.
  - rewrite extend_empty_r. reflexivity.
  - rewrite fmap_cons. cbn [app collect].
    rewrite IH, categorize_by_status, extend_assoc.
    rewrite <- by_status_app. reflexivity.
Qed.

(** Whatever the tasks did, the loop has appended results of tasks, and
    nothing else, to the buckets it found. *)
Lemma collect_appends (completed : list (Raises Verdict)) (r : Results) :
  exists vs,
    (collect completed r).1 = extend r (by_status vs)
    /\ (length vs <= length completed)%nat
    /\ Forall (fun v => inr v ∈ completed) vs.
Proof.
  revert r. induction completed as [|[e|v] completed IH]; intros r.
  - exists []. rewrite extend_empty_r. repeat split; [reflexivity | constructor].
  - exists []. rewrite extend_empty_r. cbn.
    repeat split; [lia | constructor].
  - destruct (IH (categorize v r)) as (vs & Hvs & Hlen & Hin).
    exists (v :: vs). cbn [collect]. rewrite Hvs.
    rewrite categorize_by_status, extend_assoc, <- by_status_app.
    split; [reflexivity |]. split; [cbn; lia |].
    constructor; [left |].
    eapply Forall_impl; [exact Hin |]. intros v' Hv'. right. exact Hv'.
Qed.

(** The loop stops at the first task that raised: the buckets have
    received the results of the tasks before it, each once. *)
Lemma collect_stops (completed : list (Raises Verdict)) (r : Results) :
  exists vs rest,
    completed = (inr <$> vs) ++ rest
    /\ (collect completed r).1 = extend r (by_status vs).
Proof.
  revert r. induction completed as [|[e|v] completed IH]; intros r.
  - exists [], []. rewrite extend_empty_r. split; reflexivity.
  - exists [], (inl e :: completed). rewrite extend_empty_r. split; reflexivity.
  - destruct (IH (categorize v r)) as (vs & rest & Hsplit & Hvs).
    exists (v :: vs), rest. cbn [collect]. rewrite Hvs.
    rewrite categorize_by_status, extend_assoc, <- by_status_app.
    split; [| reflexivity]. rewrite fmap_cons, Hsplit. reflexivity.
Qed.

(** The results a scan appends are results of its tasks, none of them used
    twice. *)
Lemma scan_username_appended (self : UsernameChecker) (username : string)
    (client : Client) (rng : nat -> nat) (schedule : list nat) :
  exists new,
    (scan_username self username client rng schedule).1
    = mkChecker (sites_file self) (timeout self) (rate_limit self) (sites self)
                (extend (results self) (by_status new))
    /\ inr <$> new ⊆+ tasks self username client rng
    /\ (length new <= length (sites self))%nat.
Proof.
  unfold scan_username.
  destruct (collect_stops (as_completed schedule (tasks self username client rng))
              (results self)) as (new & rest & Hsplit & Hnew).
  exists new. destruct (collect _ _) as [r x]. cbn in Hnew. subst r.
  split; [reflexivity |].
  assert (Hsub : inr <$> new ⊆+ tasks self username client rng).
  { rewrite <- (as_completed_Permutation schedule (tasks self username client rng)).
    rewrite Hsplit. apply submseteq_inserts_r. reflexivity. }
  split; [exact Hsub |].
  apply submseteq_length in Hsub. rewrite length_fmap in Hsub.
  unfold tasks in Hsub. rewrite length_imap in Hsub. exact Hsub.
Qed.

(** The result of a task has one of the four statuses. *)
Lemma tasks_status (self : UsernameChecker) (username : string)
    (client : Client) (rng : nat -> nat) (v : Verdict) :
  inr v ∈ tasks self username client rng ->
  Verdict.status v ∈ ["found"; "not_found"; "unknown"; "error"].
Proof.
  unfold tasks. intros Hin.
  apply elem_of_lookup_imap in Hin as (i & site & Heq & _).
  destruct (check_username self site username client (rng i)) as [trace x] eqn:Hrun.
  cbn in Heq. subst x.
  destruct (check_username_returns _ _ _ _ _ _ _ Hrun) as [dt Hres].
  rewrite (check_username_resolved _ _ _ _ _ _ _ _ Hres) in Hrun. cbv zeta in Hrun.
  destruct (client _) as [response|e]; injection Hrun as _ <-.
  - pose proof (detect_status site dt response (Verdict.site v) (Verdict.url v)) as Hst.
    rewrite !elem_of_cons in *. tauto.
  - rewrite !elem_of_cons. destruct e; cbn; auto.
Qed.

(** The tasks of a list of sites are those of its parts, the draws of the
    second part being the later ones. *)
Lemma tasks_app (f : string) (t : Z) (d : float) (l1 l2 : list Site) (r : Results)
    (username : string) (client : Client) (rng : nat -> nat) :
  tasks (mkChecker f t d (l1 ++ l2) r) username client rng
  = tasks (mkChecker f t d l1 r) username client rng
    ++ tasks (mkChecker f t d l2 r) username client (fun i => rng (length l1 + i)%nat).
Proof. unfold tasks. cbn [sites]. rewrite imap_app. reflexivity. Qed.

(** X6. When a task raises, the scan raises that exception as soon as the
    task completes: the buckets have by then received the results of the
    tasks that completed before it, and of no other. *)
Theorem scan_raises_with_partial_results (self : UsernameChecker) (username : string)
    (client : Client) (rng : nat -> nat) (schedule : list nat)
    (before : list Verdict) (e : Exception) (after : list (Raises Verdict)) :
  as_completed schedule (tasks self username client rng)
  = (inr <$> before) ++ inl e :: after ->
  scan_username self username client rng schedule =
    (mkChecker (sites_file self) (timeout self) (rate_limit self) (sites self)
               (extend (results self) (by_status before)),
     inl e).
Proof.
  intros Horder. unfold scan_username. rewrite Horder, collect_app_returned.
  reflexivity.
Qed.

(** X7. A scan, whether it returns or raises, leaves the path, the timeout,
    the delay and the site list of the checker as they were, and only
    appends to the buckets: each bucket keeps the results it had, in their
    order, followed by results of tasks of this scan. The appended results
    are results of different tasks, no task giving two of them, so there is
    at most one for each site. *)
Theorem scan_only_appends (self : UsernameChecker) (username : string)
    (client : Client) (rng : nat -> nat) (schedule : list nat) :
  exists new,
    (scan_username self username client rng schedule).1
    = mkChecker (sites_file self) (timeout self) (rate_limit self) (sites self)
                (extend (results self) (by_status new))
    /\ inr <$> new ⊆+ tasks self username client rng
    /\ length (tasks self username client rng) = length (sites self)
    /\ (length new <= length (sites self))%nat.
Proof.
  destruct (scan_username_appended self username client rng schedule)
    as (new & Hstate & Hsub & Hlen).
  exists new. split; [exact Hstate |]. split; [exact Hsub |].
  split; [apply length_imap | exact Hlen].
Qed.

(** X8. A scan keeps the buckets sorted: if [found] held only results with
    status [found], [not_found] only [not_found] ones and [errors] only
    [unknown] and [error] ones, so they do afterwards, whether the scan
    returned or raised. *)
Theorem scan_keeps_buckets_sorted (self : UsernameChecker) (username : string)
    (client : Client) (rng : nat -> nat) (schedule : list nat) :
  well_bucketed (results self) ->
  well_bucketed (results (scan_username self username client rng schedule).1).
Proof.
  intros (Hf & Hn & He). unfold scan_username.
  destruct (collect_appends (as_completed schedule (tasks self username client rng))
              (results self)) as (new & Hnew & _ & Hin).
  destruct (collect _ _) as [r x]. cbn in Hnew. subst r. cbn [fst results].
  unfold well_bucketed, extend, by_status. cbn [found not_found errors].
  rewrite !Forall_app.
  split; [| split]; (split; [assumption |]); apply Forall_forall; intros v Hv;
    apply list_elem_of_filter in Hv as [Hv Hnewv].
  - exact Hv.
  - exact Hv.
  - rewrite Forall_forall in Hin. specialize (Hin v Hnewv).
    rewrite as_completed_Permutation in Hin. apply tasks_status in Hin.
    destruct Hv as [Hnf Hnn]. rewrite !elem_of_cons in Hin.
    destruct Hin as [?|[?|[?|[?|Hnil]]]]; try tauto. inversion Hnil.
Qed.

(** X9. Sites are probed apart from each other: the scan of two site lists
    put together returns in each bucket, up to order, what the scans of the
    two lists return, the tasks of the second list taking the later draws. *)
Theorem scan_of_two_lists (f : string) (t : Z) (d : float) (l1 l2 : list Site)
    (username : string) (client : Client) (rng : nat -> nat)
    (schedule schedule1 schedule2 : list nat) :
  Forall (resolves username) (l1 ++ l2) ->
  exists whole part1 part2,
    scan_username (mkChecker f t d (l1 ++ l2) empty_results)
      username client rng schedule
    = (whole, inr self_results)
    /\ scan_username (mkChecker f t d l1 empty_results)
         username client rng schedule1
       = (part1, inr self_results)
    /\ scan_username (mkChecker f t d l2 empty_results)
         username client (fun i => rng (length l1 + i)%nat) schedule2
       = (part2, inr self_results)
    /\ found (results whole) ≡ₚ found (results part1) ++ found (results part2)
    /\ not_found (results whole)
       ≡ₚ not_found (results part1) ++ not_found (results part2)
    /\ errors (results whole) ≡ₚ errors (results part1) ++ errors (results part2).
Proof.
  intros Hall. apply Forall_app in Hall as [Hall1 Hall2].
  destruct (tasks_resolved (mkChecker f t d l1 empty_results) username client rng Hall1)
    as [vs1 Hvs1].
  destruct (tasks_resolved (mkChecker f t d l2 empty_results) username client
              (fun i => rng (length l1 + i)%nat) Hall2) as [vs2 Hvs2].
  assert (Hvs : tasks (mkChecker f t d (l1 ++ l2) empty_results) username client rng
                = inr <$> (vs1 ++ vs2))
    by (rewrite tasks_app, Hvs1, Hvs2, fmap_app; reflexivity).
  eexists _, _, _.
  split; [apply (scan_username_returned _ _ _ _ _ _ Hvs) |].
  split; [apply (scan_username_returned _ _ _ _ _ _ Hvs1) |].
  split; [apply (scan_username_returned _ _ _ _ _ _ Hvs2) |].
  cbn [results]. rewrite !extend_empty_l.
  destruct (by_status_order (as_completed schedule (vs1 ++ vs2))
              (as_completed schedule1 vs1 ++ as_completed schedule2 vs2))
    as (Hf & Hn & He).
  { rewrite !as_completed_Permutation. reflexivity. }
  rewrite by_status_app in Hf, Hn, He. auto.
Qed.

(** X10. [load_sites] never clears the buckets: whatever the sites file
    holds, the checker keeps its results, and a scan after it returns or
    leaves them all, in their order, before the new ones, which are results
    of different tasks of the sites now loaded, at most one for each. *)
Theorem reload_keeps_the_results (self : UsernameChecker) (file : SitesFile)
    (username : string) (client : Client) (rng : nat -> nat) (schedule : list nat) :
  results (load_sites self file).1 = results self
  /\ exists new,
       results (scan_username (load_sites self file).1
                  username client rng schedule).1
       = extend (results self) (by_status new)
       /\ inr <$> new ⊆+ tasks (load_sites self file).1 username client rng
       /\ length (tasks (load_sites self file).1 username client rng)
          = length (sites (load_sites self file).1)
       /\ (length new <= length (sites (load_sites self file).1))%nat.
Proof.
  assert (Hkeep : results (load_sites self file).1 = results self)
    by (destruct file; reflexivity).
  split; [exact Hkeep |].
  destruct (scan_username_appended (load_sites self file).1 username client rng schedule)
    as (new & Hstate & Hsub & Hlen).
  exists new. rewrite Hstate. cbn [results]. rewrite Hkeep.
  split; [reflexivity |]. split; [exact Hsub |].
  split; [apply length_imap | exact Hlen].
Qed.

End ScanFacts.

(** * Properties of the display and of the export *)






(** X11. What [display_results] prints depends on the [found] bucket and on
    the number of results in [errors] only: neither the username, nor the
    [not_found] results, nor the status, URL or error of a result in
    [errors] is shown. *)
Theorem display_reads_found_and_error_count (self self' : UsernameChecker)
    (username username' : string) :
  found (results self) = found (results self') ->
  length (errors (results self)) = length (errors (results self')) ->
  display_results self username = display_results self' username'.
Proof.
  intros Hfound Herrors. unfold display_results.
  rewrite Hfound, Herrors.
  destruct (errors (results self)), (errors (results self')); try discriminate;
    reflexivity.
Qed.

(** X12. Every result in [found] has its row in the table, site then URL,
    and the table has as many rows as [found] has results, in the same
    order. *)
Theorem display_lists_every_found (self : UsernameChecker) (username : string)
    (v : Verdict) :
  v ∈ found (results self) ->
  exists table,
    Rendered table ∈ display_results self username
    /\ [Verdict.site v; Verdict.url v] ∈ rows table
    /\ rows table
       = (fun result => [Verdict.site result; Verdict.url result])
           <$> found (results self)
    /\ length (rows table) = length (found (results self)).
Proof.
  intros Hv. unfold display_results.
  destruct (found (results self)) as [|w l] eqn:Hfound; [inversion Hv |].
  eexists. split.
  - apply elem_of_app. right. apply elem_of_app. left. left.
  - cbn [rows]. split; [| split; [reflexivity | apply length_fmap]].
    apply (list_elem_of_fmap_2 (fun result => [Verdict.site result; Verdict.url result])).
    exact Hv.
Qed.

(** X13. Whatever the format, what [export_results] writes and prints
    depends on the [found] bucket and on the sizes of the other two only:
    no [not_found] result and no error detail reaches a file. *)
Theorem export_reads_found_and_counts (self self' : UsernameChecker)
    (username format timestamp scan_date : string) (open_w : string -> Raises unit) :
  found (results self) = found (results self') ->
  length (not_found (results self)) = length (not_found (results self')) ->
  length (errors (results self)) = length (errors (results self')) ->
  export_results self username format timestamp scan_date open_w
  = export_results self' username format timestamp scan_date open_w.
Proof.
  intros Hfound Hnot_found Herrors. unfold export_results.
  rewrite Hfound, Hnot_found, Herrors. reflexivity.
Qed.

(** X14. With a format other than ["txt"] and ["json"], [export_results]
    writes no file and prints nothing; it opens no file, so that it
    returns whatever the file system. *)
Theorem export_other_format (self : UsernameChecker)
    (username format timestamp scan_date : string) (open_w : string -> Raises unit) :
  format <> "txt" ->
  format <> "json" ->
  export_results self username format timestamp scan_date open_w = ([], [], inr tt).
Proof.
  intros Htxt Hjson. unfold export_results.
  apply String.eqb_neq in Htxt. apply String.eqb_neq in Hjson.
  rewrite Htxt, Hjson. reflexivity.
Qed.


Section AfterTheScan.
Context `{Builtins}.

(** A scan of sites that resolve, from empty buckets. *)
Lemma scan_from_empty (self : UsernameChecker) (username : string)
    (client : Client) (rng : nat -> nat) (schedule : list nat) :
  results self = empty_results ->
  Forall (resolves username) (sites self) ->
  exists completed,
    scan_username self username client rng schedule
    = (mkChecker (sites_file self) (timeout self) (rate_limit self) (sites self)
                 (by_status completed),
       inr self_results)
    /\ length completed = length (sites self)
    /\ inr <$> completed ≡ₚ tasks self username client rng.
Proof.
  intros Hempty Hall.
  destruct (tasks_resolved self username client rng Hall) as [vs Hvs].
  exists (as_completed schedule vs).
  rewrite (scan_username_returned _ _ _ _ _ _ Hvs), Hempty, extend_empty_l.
  split; [reflexivity |].
  rewrite Hvs, as_completed_Permutation. split; [| reflexivity].
  rewrite <- (length_fmap (@inr Exception Verdict) vs), <- Hvs.
  unfold tasks. apply length_imap.
Qed.

(** X16. After a scan in which every request failed, [display_results]
    shows no table: it prints that no accounts were found and, when there
    were sites, the number of errors, which is the number of sites. *)
Theorem display_after_failed_scan (self : UsernameChecker) (username : string)
    (client : Client) (rng : nat -> nat) (schedule : list nat) :
  results self = empty_results ->
  Forall (resolves username) (sites self) ->
  (forall request, exists e, client request = Raised e) ->
  display_results (scan_username self username client rng schedule).1 username
  = [Text nl; Text "[yellow]No accounts found.[/yellow]"]
    ++ match sites self with
       | [] => []
       | _ :: _ =>
           [Text (nl +:+ "[dim]⚠ " +:+ pretty (length (sites self))
                  +:+ " errors/timeouts occurred[/dim]")]
       end.
Proof.
  intros Hempty Hall Hfail.
  destruct (tasks_resolved self username client rng Hall) as [vs Hvs].
  pose proof (tasks_all_failed _ _ _ _ _ Hfail Hvs) as Herr.
  rewrite <- (as_completed_Permutation schedule vs) in Herr.
  assert (Hlen : length (as_completed schedule vs) = length (sites self)).
  { rewrite as_completed_Permutation.
    rewrite <- (length_fmap (@inr Exception Verdict) vs), <- Hvs.
    unfold tasks. apply length_imap. }
  rewrite (scan_username_returned _ _ _ _ _ _ Hvs), Hempty, extend_empty_l.
  unfold display_results, by_status. cbn [fst results found errors].
  rewrite filter_none, filter_all.
  - rewrite Hlen.
    destruct (as_completed schedule vs), (sites self); try discriminate; reflexivity.
  - eapply Forall_impl; [exact Herr |].
    intros v Hv. unfold in_errors. rewrite Hv. split; discriminate.
  - eapply Forall_impl; [exact Herr |].
    intros v Hv. unfold in_found. rewrite Hv. discriminate.
Qed.

(** X17. The JSON export after a scan of sites that resolve, from empty
    buckets, when the file opens: one file, named after the username and
    the timestamp, whose summary counts add up to the number of sites and
    whose results are the [found] bucket, as many as the summary says, each
    with status [found]. When the file does not open, the export raises
    what [open] raised and has written nothing. *)
Theorem export_json_after_scan (self : UsernameChecker) (username : string)
    (client : Client) (rng : nat -> nat) (schedule : list nat)
    (timestamp scan_date : string) (open_w : string -> Raises unit) :
  results self = empty_results ->
  Forall (resolves username) (sites self) ->
  exists self',
    scan_username self username client rng schedule = (self', inr self_results)
    /\ (open_w (export_filename username timestamp Args.json) = inr tt ->
        exists data,
          export_results self' username "json" timestamp scan_date open_w
          = ([mkFile (export_filename username timestamp Args.json) (JsonDump data 2)],
             [Text ("[green]✓[/green] Results exported to [cyan]"
                    +:+ export_filename username timestamp Args.json +:+ "[/cyan]")],
             inr tt)
          /\ (summary_found (export_summary data)
              + summary_not_found (export_summary data)
              + summary_errors (export_summary data) = length (sites self))%nat
          /\ export_results_entry data = found (results self')
          /\ length (export_results_entry data) = summary_found (export_summary data)
          /\ Forall (fun v => Verdict.status v = "found") (export_results_entry data))
    /\ (forall e,
          open_w (export_filename username timestamp Args.json) = inl e ->
          export_results self' username "json" timestamp scan_date open_w
          = ([], [], inl e)).
Proof.
  intros Hempty Hall.
  destruct (scan_from_empty self username client rng schedule Hempty Hall)
    as (completed & Hscan & Hlen & _).
  eexists. split; [exact Hscan |].
  unfold export_results.
  change (String.eqb "json" "txt") with false.
  change (String.eqb "json" "json") with true. cbv iota zeta.
  change (username +:+ "_" +:+ timestamp +:+ ".json")
    with (export_filename username timestamp Args.json).
  split; [intros Hopen | intros e Hopen]; rewrite Hopen; [| reflexivity].
  eexists. split; [reflexivity |].
  cbn [export_summary summary_found summary_not_found summary_errors
       export_results_entry results].
  split; [rewrite by_status_length; exact Hlen |].
  split; [reflexivity |]. split; [reflexivity |].
  unfold by_status. cbn [found].
  apply Forall_forall. intros v Hv. apply list_elem_of_filter in Hv as [Hv _].
  exact Hv.
Qed.

(** [main] when the sites file parsed. *)
Lemma main_parsed (args : Args.t) (entry : option (list Site)) (client : Client)
    (rng : nat -> nat) (schedule : list nat) (timestamp scan_date : string)
    (open_w : string -> Raises unit) :
  main args (Parsed entry) client rng schedule timestamp scan_date open_w =
    let '(checker, scanned) :=
      scan_username
        (mkChecker (Args.sites args) (Args.timeout args) (Args.rate_limit args)
                   (default [] entry) empty_results)
        (Args.username args) client rng schedule in
    match scanned with
    | inl e => mkRun [] [] (inl e)
    | inr _ =>
        match Args.export args with
        | None =>
            mkRun [] (display_results checker (Args.username args)
                      ++ scan_complete checker)
                  (inr tt)
        | Some choice =>
            let out :=
              export_results checker (Args.username args) (Args.to_str choice)
                timestamp scan_date open_w in
            match out.2 with
            | inl e =>
                mkRun out.1.1 (display_results checker (Args.username args) ++ out.1.2)
                      (inl e)
            | inr _ =>
                mkRun out.1.1
                      (display_results checker (Args.username args) ++ out.1.2
                       ++ scan_complete checker)
                      (inr tt)
            end
        end
    end.
Proof.
  unfold main. cbn [load_sites init negb sites_file timeout rate_limit results].
  change (mkResults [] [] []) with empty_results.
  destruct (scan_username _ _ _ _ _) as [checker [e|ref]]; [reflexivity |].
  destruct (Args.export args) as [choice|]; [| reflexivity].
  cbv zeta.
  destruct (export_results _ _ _ _ _ _) as [[exported_files printed] [e|[]]];
    reflexivity.
Qed.

(** [main] when the sites file is missing or does not parse. *)
Lemma main_not_loaded (args : Args.t) (file : SitesFile) (client : Client)
    (rng : nat -> nat) (schedule : list nat) (timestamp scan_date : string)
    (open_w : string -> Raises unit) :
  file = Missing \/ file = Unparsable ->
  main args file client rng schedule timestamp scan_date open_w
  = mkRun [] [] (inr tt).
Proof. intros [-> | ->]; reflexivity. Qed.

(** A scan ends in one of two ways. *)
Lemma scan_username_ended (self : UsernameChecker) (username : string)
    (client : Client) (rng : nat -> nat) (schedule : list nat) :
  (Forall (resolves username) (sites self)
   /\ (scan_username self username client rng schedule).2 = inr self_results)
  \/ (~ Forall (resolves username) (sites self)
      /\ exists e, (scan_username self username client rng schedule).2 = inl e).
Proof.
  pose proof (scan_username_returns_iff self username client rng schedule) as Hiff.
  destruct (scan_username self username client rng schedule).2 as [e|[]] eqn:Hend.
  - right. split; [| exists e; reflexivity].
    intros Hall. apply Hiff in Hall. discriminate.
  - left. split; [apply Hiff |]; reflexivity.
Qed.

(** The export [main] asks for, by what [open] does. *)
Lemma export_of_choice (self : UsernameChecker) (username timestamp scan_date : string)
    (open_w : string -> Raises unit) (choice : Args.Export) :
  match open_w (export_filename username timestamp choice) with
  | inl e =>
      export_results self username (Args.to_str choice) timestamp scan_date open_w
      = ([], [], inl e)
  | inr _ =>
      exists written,
        export_results self username (Args.to_str choice) timestamp scan_date open_w
        = ([mkFile (export_filename username timestamp choice) written],
           [Text ("[green]✓[/green] Results exported to [cyan]"
                  +:+ export_filename username timestamp choice +:+ "[/cyan]")],
           inr tt)
  end.
Proof.
  unfold export_results, export_filename.
  destruct choice; cbv [Args.to_str].
  - change (String.eqb "txt" "txt") with true. cbv iota zeta.
    change ("." +:+ "txt") with ".txt".
    destruct (open_w _) as [e|[]]; [reflexivity | eexists; reflexivity].
  - change (String.eqb "json" "txt") with false.
    change (String.eqb "json" "json") with true. cbv iota zeta.
    change ("." +:+ "json") with ".json".
    destruct (open_w _) as [e|[]]; [reflexivity | eexists; reflexivity].
Qed.

(** X18. [main] writes a file only when [--export] was given, the sites
    file parsed, every site resolves and the file opens, and then exactly
    one, named after the username, the timestamp and the format, and it
    ends without an exception; in every other run it writes none. *)
Theorem main_writes_one_file_or_none (args : Args.t) (file : SitesFile)
    (client : Client) (rng : nat -> nat) (schedule : list nat)
    (timestamp scan_date : string) (open_w : string -> Raises unit) :
  (exists choice written entry,
     Args.export args = Some choice
     /\ file = Parsed entry
     /\ Forall (resolves (Args.username args)) (default [] entry)
     /\ open_w (export_filename (Args.username args) timestamp choice) = inr tt
     /\ files (main args file client rng schedule timestamp scan_date open_w)
        = [mkFile (export_filename (Args.username args) timestamp choice) written]
     /\ ended (main args file client rng schedule timestamp scan_date open_w)
        = inr tt)
  \/ (files (main args file client rng schedule timestamp scan_date open_w) = []
      /\ (Args.export args = None
          \/ file = Missing
          \/ file = Unparsable
          \/ (exists entry,
                file = Parsed entry
                /\ ~ Forall (resolves (Args.username args)) (default [] entry))
          \/ (exists choice e,
                Args.export args = Some choice
                /\ open_w (export_filename (Args.username args) timestamp choice)
                   = inl e))).
Proof.
  destruct file as [| |entry].
  - right. rewrite main_not_loaded by auto. cbn. auto.
  - right. rewrite main_not_loaded by auto. cbn. auto.
  - rewrite main_parsed.
    destruct (scan_username_ended
                (mkChecker (Args.sites args) (Args.timeout args) (Args.rate_limit args)
                           (default [] entry) empty_results)
                (Args.username args) client rng schedule)
      as [[Hall Hend] | [Hnall [e Hend]]];
      destruct (scan_username _ _ _ _ _) as [checker x]; cbn [snd] in Hend; subst x.
    + destruct (Args.export args) as [choice|] eqn:Hexport.
      * pose proof (export_of_choice checker (Args.username args) timestamp scan_date
                      open_w choice) as Hout.
        destruct (open_w (export_filename (Args.username args) timestamp choice))
          as [e|[]] eqn:Hopen.
        -- right. cbv zeta. rewrite Hout. cbn.
           split; [reflexivity |]. do 4 right. eauto.
        -- left. destruct Hout as [written Hout].
           exists choice, written, entry. cbv zeta. rewrite Hout. cbn. auto 10.
      * right. cbn. auto.
    + right. cbn. split; [reflexivity |]. do 3 right. left. eauto.
Qed.

(** X19. [main] ends with an exception in two cases only: the sites file
    parsed and holds a site that does not resolve, and then nothing is
    displayed, whatever the other sites returned; or every site resolves,
    [--export] was given and the file does not open, and then the results
    were displayed and the closing lines are not printed. In both cases no
    file is written. A sites file that is missing or does not parse ends
    [main] without an exception, before any scan. *)
Theorem main_raises_in_two_cases (args : Args.t) (file : SitesFile)
    (client : Client) (rng : nat -> nat) (schedule : list nat)
    (timestamp scan_date : string) (open_w : string -> Raises unit) :
  ((exists e, ended (main args file client rng schedule timestamp scan_date open_w)
              = inl e)
   <-> (exists entry,
          file = Parsed entry
          /\ ~ Forall (resolves (Args.username args)) (default [] entry))
       \/ (exists entry choice e,
             file = Parsed entry
             /\ Forall (resolves (Args.username args)) (default [] entry)
             /\ Args.export args = Some choice
             /\ open_w (export_filename (Args.username args) timestamp choice)
                = inl e))
  /\ (forall e,
        ended (main args file client rng schedule timestamp scan_date open_w) = inl e ->
        files (main args file client rng schedule timestamp scan_date open_w) = [])
  /\ (forall entry,
        file = Parsed entry ->
        ~ Forall (resolves (Args.username args)) (default [] entry) ->
        after_scan (main args file client rng schedule timestamp scan_date open_w) = [])
  /\ (forall entry choice e,
        file = Parsed entry ->
        Forall (resolves (Args.username args)) (default [] entry) ->
        Args.export args = Some choice ->
        open_w (export_filename (Args.username args) timestamp choice) = inl e ->
        exists checker,
          scan_username
            (mkChecker (Args.sites args) (Args.timeout args) (Args.rate_limit args)
                       (default [] entry) empty_results)
            (Args.username args) client rng schedule
          = (checker, inr self_results)
          /\ main args file client rng schedule timestamp scan_date open_w
             = mkRun [] (display_results checker (Args.username args)) (inl e))
  /\ (file = Missing \/ file = Unparsable ->
      main args file client rng schedule timestamp scan_date open_w
      = mkRun [] [] (inr tt)).
Proof.
  assert (Hcases :
    forall entry,
      file = Parsed entry ->
      (~ Forall (resolves (Args.username args)) (default [] entry)
       /\ exists e, main args file client rng schedule timestamp scan_date open_w
                    = mkRun [] [] (inl e))
      \/ (Forall (resolves (Args.username args)) (default [] entry)
          /\ exists checker,
               scan_username
                 (mkChecker (Args.sites args) (Args.timeout args)
                            (Args.rate_limit args) (default [] entry) empty_results)
                 (Args.username args) client rng schedule
               = (checker, inr self_results)
               /\ match Args.export args with
                  | None =>
                      ended (main args file client rng schedule timestamp scan_date
                               open_w) = inr tt
                  | Some choice =>
                      match open_w (export_filename (Args.username args) timestamp
                                      choice) with
                      | inl e =>
                          main args file client rng schedule timestamp scan_date open_w
                          = mkRun [] (display_results checker (Args.username args))
                                  (inl e)
                      | inr _ =>
                          ended (main args file client rng schedule timestamp scan_date
                                   open_w) = inr tt
                      end
                  end)).
  { intros entry ->. rewrite main_parsed.
    destruct (scan_username_ended
                (mkChecker (Args.sites args) (Args.timeout args) (Args.rate_limit args)
                           (default [] entry) empty_results)
                (Args.username args) client rng schedule)
      as [[Hall Hend] | [Hnall [e Hend]]];
      destruct (scan_username _ _ _ _ _) as [checker x]; cbn [snd] in Hend; subst x.
    - right. split; [exact Hall |]. exists checker. split; [reflexivity |].
      destruct (Args.export args) as [choice|]; [| reflexivity].
      pose proof (export_of_choice checker (Args.username args) timestamp scan_date
                    open_w choice) as Hout.
      destruct (open_w (export_filename (Args.username args) timestamp choice))
        as [e|[]].
      + cbv zeta. rewrite Hout. cbn. rewrite app_nil_r. reflexivity.
      + destruct Hout as [written Hout]. cbv zeta. rewrite Hout. reflexivity.
    - left. split; [exact Hnall |]. exists e. reflexivity. }
  split; [| split; [| split; [| split; [| apply main_not_loaded]]]].
  - destruct file as [| |entry].
    + rewrite main_not_loaded by auto. cbn.
      split; [intros [e He]; discriminate |].
      intros [(entry & Habs & _) | (entry & ? & ? & Habs & _)]; discriminate.
    + rewrite main_not_loaded by auto. cbn.
      split; [intros [e He]; discriminate |].
      intros [(entry & Habs & _) | (entry & ? & ? & Habs & _)]; discriminate.
    + destruct (Hcases entry eq_refl)
        as [[Hnall [e Hmain]] | [Hall (checker & Hscan & Hexport)]].
      * rewrite Hmain. cbn. split; [intros _; left; eauto |].
        intros _. exists e. reflexivity.
      * destruct (Args.export args) as [choice|] eqn:Hchoice.
        -- destruct (open_w (export_filename (Args.username args) timestamp choice))
             as [e|[]] eqn:Hopen.
           ++ rewrite Hexport. cbn. split; [| intros _; exists e; reflexivity].
              intros _. right. exists entry, choice, e. auto.
           ++ rewrite Hexport. split; [intros [e He]; discriminate |].
              intros [(entry' & [= <-] & Hnall) | (entry' & choice' & e & _ & _ & Hc & Ho)];
                [contradiction |].
              injection Hc as <-. rewrite Hopen in Ho. discriminate.
        -- rewrite Hexport. split; [intros [e He]; discriminate |].
           intros [(entry' & [= <-] & Hnall) | (entry' & choice' & e & _ & _ & Hc & _)];
             [contradiction | discriminate].
  - intros e. destruct file as [| |entry].
    + rewrite main_not_loaded by auto. discriminate.
    + rewrite main_not_loaded by auto. discriminate.
    + destruct (Hcases entry eq_refl)
        as [[Hnall [e' Hmain]] | [Hall (checker & Hscan & Hexport)]].
      * rewrite Hmain. reflexivity.
      * destruct (Args.export args) as [choice|].
        -- destruct (open_w (export_filename (Args.username args) timestamp choice))
             as [e'|[]].
           ++ rewrite Hexport. reflexivity.
           ++ rewrite Hexport. discriminate.
        -- rewrite Hexport. discriminate.
  - intros entry Hfile Hnall.
    destruct (Hcases entry Hfile) as [[_ [e Hmain]] | [Hall _]]; [| contradiction].
    rewrite Hmain. reflexivity.
  - intros entry choice e Hfile Hall Hchoice Hopen.
    destruct (Hcases entry Hfile) as [[Hnall _] | [_ (checker & Hscan & Hexport)]];
      [contradiction |].
    exists checker. split; [exact Hscan |].
    rewrite Hchoice, Hopen in Hexport. exact Hexport.
Qed.

(** X20. When the sites file parsed, every site resolves and the file of
    the export, if one was asked for, opens, [main] ends without an
    exception, and the three counts of its last lines, found, not found
    and errors, add up to the number of sites in the file. *)
Theorem main_counts_add_up (args : Args.t) (entry : option (list Site))
    (client : Client) (rng : nat -> nat) (schedule : list nat)
    (timestamp scan_date : string) (open_w : string -> Raises unit) :
  Forall (resolves (Args.username args)) (default [] entry) ->
  (forall choice,
     Args.export args = Some choice ->
     open_w (export_filename (Args.username args) timestamp choice) = inr tt) ->
  exists shown found_count not_found_count error_count,
    ended (main args (Parsed entry) client rng schedule timestamp scan_date open_w)
    = inr tt
    /\ after_scan (main args (Parsed entry) client rng schedule timestamp scan_date
                     open_w)
       = shown
         ++ [Text (nl +:+ "[bold]Scan Complete![/bold]");
             Text ("  Found: [green]" +:+ pretty found_count +:+ "[/green]");
             Text ("  Not Found: [dim]" +:+ pretty not_found_count +:+ "[/dim]");
             Text ("  Errors: [yellow]" +:+ pretty error_count +:+ "[/yellow]" +:+ nl)]
    /\ (found_count + not_found_count + error_count
        = length (default [] entry))%nat.
Proof.
  intros Hall Hopens. rewrite main_parsed.
  destruct (scan_from_empty
              (mkChecker (Args.sites args) (Args.timeout args) (Args.rate_limit args)
                         (default [] entry) empty_results)
              (Args.username args) client rng schedule eq_refl Hall)
    as (completed & Hscan & Hlen & _).
  cbn [sites_file timeout rate_limit sites] in Hscan, Hlen.
  rewrite Hscan. cbv zeta iota.
  destruct (Args.export args) as [choice|].
  - pose proof (export_of_choice
                  (mkChecker (Args.sites args) (Args.timeout args)
                             (Args.rate_limit args) (default [] entry)
                             (by_status completed))
                  (Args.username args) timestamp scan_date open_w choice) as Hout.
    rewrite (Hopens choice eq_refl) in Hout. destruct Hout as [written Hout].
    rewrite Hout. cbn [fst snd].
    eexists (_ ++ _), _, _, _. split; [reflexivity |].
    split; [cbn [after_scan]; rewrite app_assoc; reflexivity |].
    cbn [results]. rewrite by_status_length. exact Hlen.
  - eexists _, _, _, _. split; [reflexivity |].
    split; [reflexivity |].
    cbn [results]. rewrite by_status_length. exact Hlen.
Qed.

End AfterTheScan.

(** * The further properties on sample inputs *)

Section MoreExamples.
Import PlainStrings Samples MoreSamples.

Lemma probe_sends_one_request_witness :
  check_username checker status_site "alice" (answers 200 "") 3
  = ([Get (probe_request checker x_url 3); Sleep 0.5%float], inr found_x)
  /\ exists user_agent,
       user_agent ∈ USER_AGENTS
       /\ str_format "https://x.test/{username}" "alice" = inr x_url.
Proof.
  assert (Hrun : check_username checker status_site "alice" (answers 200 "") 3
                 = ([Get (probe_request checker x_url 3); Sleep 0.5%float],
                    inr found_x))
    by (vm_compute; reflexivity).
  split; [exact Hrun |].
  destruct (probe_sends_one_request checker status_site "alice" (answers 200 "") 3
              _ found_x Hrun)
    as (user_agent & url_template & Hpool & _ & Htpl & Hfmt & _).
  exists user_agent. split; [exact Hpool |].
  assert (url_template = "https://x.test/{username}") as <-
    by (vm_compute in Htpl; congruence).
  exact Hfmt.
Defined.

Lemma other_detection_types_witness :
  resolve odd_site "alice" = inr ("Z", "https://z.test/alice", "redirect")
  /\ "redirect" <> "status_code"
  /\ "redirect" <> "message_body"
  /\ answers 404 "" (probe_request checker "https://z.test/alice" 0)
     = Completed (mkResponse 404 "")
  /\ (check_username checker odd_site "alice" (answers 404 "") 0).2
     = inr (Verdict.mk "Z" "https://z.test/alice" "unknown" None).
Proof.
  assert (Hres : resolve odd_site "alice"
                 = inr ("Z", "https://z.test/alice", "redirect"))
    by (vm_compute; reflexivity).
  assert (Hsc : "redirect" <> "status_code") by discriminate.
  assert (Hmb : "redirect" <> "message_body") by discriminate.
  split; [exact Hres |]. split; [exact Hsc |]. split; [exact Hmb |].
  split; [reflexivity |].
  rewrite (other_detection_types checker odd_site "alice" (answers 404 "") 0
             "Z" "https://z.test/alice" "redirect" (mkResponse 404 "")
             Hres Hsc Hmb eq_refl).
  reflexivity.
Defined.

Lemma error_status_iff_request_raised_witness :
  check_username checker status_site "alice" (fails TimeoutException) 0
  = ([Get (probe_request checker x_url 0)],
     inr (Verdict.mk "X" x_url "error" (Some "Timeout")))
  /\ exists e, fails TimeoutException (probe_request checker x_url 0) = Raised e.
Proof.
  assert (Hrun : check_username checker status_site "alice" (fails TimeoutException) 0
                 = ([Get (probe_request checker x_url 0)],
                    inr (Verdict.mk "X" x_url "error" (Some "Timeout"))))
    by (vm_compute; reflexivity).
  split; [exact Hrun |].
  destruct (error_status_iff_request_raised checker status_site "alice"
              (fails TimeoutException) 0 _ _ Hrun) as [_ Hiff].
  apply Hiff. reflexivity.
Defined.

Lemma scan_raises_with_partial_results_witness :
  as_completed [] (tasks half_broken "alice" (answers 200 "") id)
  = (inr <$> [found_x]) ++ inl (KeyError "user") :: []
  /\ exists self',
       scan_username half_broken "alice" (answers 200 "") id []
       = (self', inl (KeyError "user"))
       /\ results self' = mkResults [found_x] [] [].
Proof.
  assert (Horder : as_completed [] (tasks half_broken "alice" (answers 200 "") id)
                   = (inr <$> [found_x]) ++ inl (KeyError "user") :: [])
    by (vm_compute; reflexivity).
  split; [exact Horder |].
  eexists. split.
  - exact (scan_raises_with_partial_results half_broken "alice" (answers 200 "") id []
             [found_x] (KeyError "user") [] Horder).
  - vm_compute. reflexivity.
Defined.

Lemma empty_results_well_bucketed : well_bucketed empty_results.
Proof. repeat split; constructor. Defined.

Lemma scan_keeps_buckets_sorted_witness :
  well_bucketed (results two_sites)
  /\ well_bucketed
       (results (scan_username two_sites "alice" x_only id [1%nat]).1).
Proof.
  split; [exact empty_results_well_bucketed |].
  exact (scan_keeps_buckets_sorted two_sites "alice" x_only id [1%nat]
           empty_results_well_bucketed).
Defined.

Lemma scan_of_two_lists_witness :
  Forall (resolves "alice") ([status_site] ++ [body_site])
  /\ exists whole part1 part2,
       scan_username (mkChecker "sites.json" 10 0.5%float
                        ([status_site] ++ [body_site]) empty_results)
         "alice" x_only id [1%nat]
       = (whole, inr self_results)
       /\ scan_username (mkChecker "sites.json" 10 0.5%float [status_site] empty_results)
            "alice" x_only id []
          = (part1, inr self_results)
       /\ scan_username (mkChecker "sites.json" 10 0.5%float [body_site] empty_results)
            "alice" x_only (fun i => id (length [status_site] + i)%nat) []
          = (part2, inr self_results)
       /\ found (results whole) ≡ₚ found (results part1) ++ found (results part2).
Proof.
  split; [exact two_sites_resolve |].
  destruct (scan_of_two_lists "sites.json" 10 0.5%float [status_site] [body_site]
              "alice" x_only id [1%nat] [] [] two_sites_resolve)
    as (whole & part1 & part2 & Hwhole & Hpart1 & Hpart2 & Hfound & _).
  exists whole, part1, part2. auto.
Defined.

Lemma display_reads_found_and_error_count_witness :
  found (results scanned) = found (results scanned_otherwise)
  /\ length (errors (results scanned)) = length (errors (results scanned_otherwise))
  /\ display_results scanned "alice" = display_results scanned_otherwise "bob".
Proof.
  split; [reflexivity |]. split; [reflexivity |].
  exact (display_reads_found_and_error_count scanned scanned_otherwise "alice" "bob"
           eq_refl eq_refl).
Defined.

Lemma found_x_in_scanned : found_x ∈ found (results scanned).
Proof. left. Defined.

Lemma display_lists_every_found_witness :
  found_x ∈ found (results scanned)
  /\ exists table,
       Rendered table ∈ display_results scanned "alice"
       /\ ["X"; x_url] ∈ rows table.
Proof.
  split; [exact found_x_in_scanned |].
  destruct (display_lists_every_found scanned "alice" found_x found_x_in_scanned)
    as (table & Hshown & Hrow & _).
  exists table. split; [exact Hshown | exact Hrow].
Defined.

Lemma export_reads_found_and_counts_witness :
  found (results scanned) = found (results scanned_otherwise)
  /\ length (not_found (results scanned))
     = length (not_found (results scanned_otherwise))
  /\ length (errors (results scanned)) = length (errors (results scanned_otherwise))
  /\ export_results scanned "alice" "json" "20240101_120000" "2024-01-01T12:00:00"
       flat_directory
     = export_results scanned_otherwise "alice" "json" "20240101_120000"
         "2024-01-01T12:00:00" flat_directory.
Proof.
  split; [reflexivity |]. split; [reflexivity |]. split; [reflexivity |].
  exact (export_reads_found_and_counts scanned scanned_otherwise "alice" "json"
           "20240101_120000" "2024-01-01T12:00:00" flat_directory
           eq_refl eq_refl eq_refl).
Defined.

Lemma export_other_format_witness :
  "csv" <> "txt"
  /\ "csv" <> "json"
  /\ export_results scanned "a/b" "csv" "20240101_120000" "2024-01-01" flat_directory
     = ([], [], inr tt).
Proof.
  assert (Htxt : "csv" <> "txt") by discriminate.
  assert (Hjson : "csv" <> "json") by discriminate.
  split; [exact Htxt |]. split; [exact Hjson |].
  exact (export_other_format scanned "a/b" "csv" "20240101_120000" "2024-01-01"
           flat_directory Htxt Hjson).
Defined.


Lemma display_after_failed_scan_witness :
  results two_sites = empty_results
  /\ Forall (resolves "alice") (sites two_sites)
  /\ (forall request : Request, exists e, fails ConnectError request = Raised e)
  /\ display_results (scan_username two_sites "alice" (fails ConnectError) id []).1
       "alice"
     = [Text nl; Text "[yellow]No accounts found.[/yellow]";
        Text (nl +:+ "[dim]⚠ 2 errors/timeouts occurred[/dim]")].
Proof.
  assert (Hfail : forall request : Request,
             exists e, fails ConnectError request = Raised e)
    by (intros request; exists ConnectError; reflexivity).
  split; [reflexivity |]. split; [exact two_sites_resolve |]. split; [exact Hfail |].
  exact (display_after_failed_scan two_sites "alice" (fails ConnectError) id []
           eq_refl two_sites_resolve Hfail).
Defined.

Lemma export_json_after_scan_witness :
  results two_sites = empty_results
  /\ Forall (resolves "alice") (sites two_sites)
  /\ flat_directory (export_filename "alice" "20240101_120000" Args.json) = inr tt
  /\ exists self' data,
       scan_username two_sites "alice" x_only id [] = (self', inr self_results)
       /\ (export_results self' "alice" "json" "20240101_120000" "2024-01-01"
             flat_directory).1.1
          = [mkFile "alice_20240101_120000.json" (JsonDump data 2)]
       /\ (summary_found (export_summary data)
           + summary_not_found (export_summary data)
           + summary_errors (export_summary data) = 2)%nat.
Proof.
  assert (Hopen : flat_directory (export_filename "alice" "20240101_120000" Args.json)
                  = inr tt)
    by (vm_compute; reflexivity).
  split; [reflexivity |]. split; [exact two_sites_resolve |]. split; [exact Hopen |].
  destruct (export_json_after_scan two_sites "alice" x_only id []
              "20240101_120000" "2024-01-01" flat_directory eq_refl two_sites_resolve)
    as (self' & Hscan & Hopened & _).
  destruct (Hopened Hopen) as (data & Hfile & Hsum & _).
  exists self', data. split; [exact Hscan |]. rewrite Hfile.
  split; [reflexivity | exact Hsum].
Defined.

Lemma json_opens_for_alice (choice : Args.Export) :
  Args.export (args (Some Args.json)) = Some choice ->
  flat_directory (export_filename (Args.username (args (Some Args.json)))
                    "20240101_120000" choice)
  = inr tt.
Proof. intros [= <-]. vm_compute. reflexivity. Defined.

Lemma main_counts_add_up_witness :
  Forall (resolves (Args.username (args (Some Args.json))))
         (default [] (Some [status_site; body_site]))
  /\ (forall choice,
        Args.export (args (Some Args.json)) = Some choice ->
        flat_directory (export_filename (Args.username (args (Some Args.json)))
                          "20240101_120000" choice)
        = inr tt)
  /\ exists found_count not_found_count error_count,
       ended (main (args (Some Args.json)) (Parsed (Some [status_site; body_site]))
                x_only id [] "20240101_120000" "2024-01-01" flat_directory)
       = inr tt
       /\ (found_count + not_found_count + error_count = 2)%nat.
Proof.
  split; [exact two_sites_resolve |]. split; [exact json_opens_for_alice |].
  destruct (main_counts_add_up (args (Some Args.json)) (Some [status_site; body_site])
              x_only id [] "20240101_120000" "2024-01-01" flat_directory
              two_sites_resolve json_opens_for_alice)
    as (shown & f & n & e & Hended & _ & Hsum).
  exists f, n, e. split; [exact Hended | exact Hsum].
Defined.

(** A run of [main] on a sites file with one site that does not resolve:
    nothing is displayed and nothing is exported, although the other site
    was found. *)
Lemma main_loses_everything :
  main (args (Some Args.json)) (Parsed (Some [status_site; mismatched_site]))
    x_only id [] "20240101_120000" "2024-01-01" flat_directory
  = mkRun [] [] (inl (KeyError "user")).
Proof. vm_compute. reflexivity. Qed.

(** A run of [main] for the username [a/b] with [--export txt] in a
    directory without subdirectories: the scan completes and the result is
    displayed, then [open] raises, no file is written and the closing lines
    are not printed. *)
Lemma main_with_a_slash :
  main (slash_args (Some Args.txt)) (Parsed (Some [status_site]))
    x_only id [] "20240101_120000" "2024-01-01" flat_directory
  = mkRun []
      (display_results
         (mkChecker "sites.json" 10 0.5%float [status_site]
                    (mkResults [Verdict.mk "X" "https://x.test/a/b" "found" None] [] []))
         "a/b")
      (inl (OtherException "FileNotFoundError"
              "[Errno 2] No such file or directory: 'a/b_20240101_120000.txt'")).
Proof. vm_compute. reflexivity. Qed.

(** C1, as stated, fails. The template of the second site does not take
    the username: whichever of the two tasks completes first, the scan
    raises and returns no buckets, and when the failing task completes
    first the result of the other site is in no bucket. And on a checker
    that has been scanned before the buckets hold more results than there
    are sites. *)
Lemma scan_without_a_partition :
  scan_username half_broken "alice" (answers 200 "") id [0%nat]
  = (mkChecker "sites.json" 10 0.5%float [status_site; mismatched_site]
               (mkResults [found_x] [] []),
     inl (KeyError "user"))
  /\ scan_username half_broken "alice" (answers 200 "") id [1%nat]
     = (mkChecker "sites.json" 10 0.5%float [status_site; mismatched_site]
                  empty_results,
        inl (KeyError "user"))
  /\ exists once twice,
       scan_username (load_sites checker (Parsed (Some [status_site]))).1
         "alice" (answers 200 "") id []
       = (once, inr self_results)
       /\ scan_username once "alice" (answers 200 "") id [] = (twice, inr self_results)
       /\ length (sites twice) = 1%nat
       /\ (length (found (deref twice self_results))
           + length (not_found (deref twice self_results))
           + length (errors (deref twice self_results)) = 2)%nat.
Proof.
  split; [vm_compute; reflexivity |]. split; [vm_compute; reflexivity |].
  eexists _, _. split; [vm_compute; reflexivity |].
  split; [vm_compute; reflexivity |]. split; reflexivity.
Qed.

(** C4. A request that fails in the TLS handshake raises [ConnectError]:
    the probe reports it with the error ["Connection failed"], where the
    claim has ["SSL/TLS error"]. The clause that assigns ["SSL/TLS error"]
    catches [UnsupportedProtocol], which is raised for the scheme of a URL
    and not for a handshake. Timeouts, refused connections and other
    exceptions are reported as the claim says. *)
Theorem tls_failure_is_reported_as_connection_failed :
  check_username checker status_site "alice" (fails (httpx_raises TlsHandshakeFailed)) 0
  = ([Get (probe_request checker x_url 0)],
     inr (Verdict.mk "X" x_url "error" (Some "Connection failed")))
  /\ check_username checker status_site "alice" (fails (httpx_raises SchemeUnsupported)) 0
     = ([Get (probe_request checker x_url 0)],
        inr (Verdict.mk "X" x_url "error" (Some "SSL/TLS error")))
  /\ check_username checker status_site "alice" (fails (httpx_raises TimedOut)) 0
     = ([Get (probe_request checker x_url 0)],
        inr (Verdict.mk "X" x_url "error" (Some "Timeout")))
  /\ check_username checker status_site "alice" (fails (httpx_raises ConnectionRefused)) 0
     = ([Get (probe_request checker x_url 0)],
        inr (Verdict.mk "X" x_url "error" (Some "Connection failed")))
  /\ check_username checker status_site "alice"
       (fails (httpx_raises (OtherFailure "ReadError" "connection reset"))) 0
     = ([Get (probe_request checker x_url 0)],
        inr (Verdict.mk "X" x_url "error" (Some "connection reset"))).
Proof. repeat split; vm_compute; reflexivity. Qed.

End MoreExamples.
